(** * Log-score analysis of story forecasts (analysis.py)

    A shallow embedding of [calculate_log_score], [analyze_predictions] and
    the ranking done in [main] of analysis.py, with the properties of the
    scoring and aggregation engine stated over it.

    Numbers.  A Python [float] is read as a real number ([R]); [math.log] is
    the natural logarithm [ln], raising [ValueError] outside its domain.  The
    result of [np.mean] is an [npfloat]: a real number, or [NaN] for the mean
    of an empty list.

    Dictionaries.  A Python [dict] keeps its insertion order, and the
    ranking of [main] depends on it, so a dictionary is an association list
    with the operations [dict_get], [dict_mem] and [dict_set]. *)

From Stdlib Require Import Reals Lra Lia String Ascii List Bool Arith.
From Stdlib Require Import Permutation Sorted DecimalString DecimalNat.
Import ListNotations.

Open Scope string_scope.
Open Scope list_scope.
Open Scope R_scope.

(** ** Exceptions *)

Inductive exn : Type :=
| ValueError (msg : string).

Inductive outcome (A : Type) : Type :=
| Returns (a : A)
| Raises (e : exn).

Arguments Returns {A} a.
Arguments Raises {A} e.

Definition bind {A B : Type} (m : outcome A) (k : A -> outcome B) : outcome B :=
  match m with
  | Returns a => k a
  | Raises e => Raises e
  end.

Notation "x <- m ;; k" := (bind m (fun x => k))
  (at level 61, m at next level, right associativity).

(** ** Scoring *)

(** [math.log]: the natural logarithm, a domain error on non-positive input. *)
Definition math_log (x : R) : outcome R :=
  if Rlt_dec 0 x then Returns (ln x) else Raises (ValueError "math domain error").

(** [calculate_log_score(prediction, actual)]. *)
Definition calculate_log_score (prediction : R) (actual : string) : outcome R :=
  if String.eqb actual "yes"
  then math_log (Rmax prediction 0.01)
  else math_log (Rmax (1 - prediction) 0.01).

(** The value clipping of the specification, [clip(x, lo, hi)]. *)
Definition clip (x lo hi : R) : R := Rmin (Rmax x lo) hi.

(** The score as a total function: the value [calculate_log_score] returns. *)
Definition log_score_value (prediction : R) (actual : string) : R :=
  if String.eqb actual "yes"
  then ln (Rmax prediction 0.01)
  else ln (Rmax (1 - prediction) 0.01).

(** ** Dictionaries in insertion order *)

Abbreviation dict V := (list (string * V)%type).

Definition keys {V : Type} (d : dict V) : list string := map fst d.
Definition values {V : Type} (d : dict V) : list V := map snd d.

(** [d.get(k)]: [None] when the key is absent. *)
Fixpoint dict_get {V : Type} (d : dict V) (k : string) : option V :=
  match d with
  | [] => None
  | (k', v) :: d' => if String.eqb k' k then Some v else dict_get d' k
  end.

(** [k in d]. *)
Definition dict_mem {V : Type} (d : dict V) (k : string) : bool :=
  match dict_get d k with
  | Some _ => true
  | None => false
  end.

(** [d[k] = v]: an existing key keeps its place, a new key goes last. *)
Fixpoint dict_set {V : Type} (d : dict V) (k : string) (v : V) : dict V :=
  match d with
  | [] => [(k, v)]
  | (k', v') :: d' =>
      if String.eqb k' k then (k', v) :: d' else (k', v') :: dict_set d' k v
  end.

(** [d[k].append(x)] on a [defaultdict(list)]. *)
Definition defaultdict_append {A : Type} (d : dict (list A)) (k : string) (x : A)
  : dict (list A) :=
  match dict_get d k with
  | Some l => dict_set d k (l ++ [x])
  | None => dict_set d k [x]
  end.



(** ** NumPy means *)

Inductive npfloat : Type :=
| Fin (r : R)
| NaN.

Definition np_add (a b : npfloat) : npfloat :=
  match a, b with
  | Fin x, Fin y => Fin (x + y)
  | _, _ => NaN
  end.

Definition np_sum (l : list npfloat) : npfloat := fold_right np_add (Fin 0) l.

(** [np.mean(l)]: [NaN] for an empty list. *)
Definition np_mean (l : list npfloat) : npfloat :=
  match l with
  | [] => NaN
  | _ :: _ =>
      match np_sum l with
      | Fin s => Fin (s / INR (length l))
      | NaN => NaN
      end
  end.

(** Arithmetic mean of a non-empty list of reals. *)
Definition mean (l : list R) : R := fold_right Rplus 0 l / INR (length l).

(** ** Input data *)

Record question : Type := { answer : string }.

(** A record of results.json; a field that may be missing is an option. *)
Record story : Type := {
  error : option bool;
  Title : option string;
  tags : option (list string);
  questions : option (list question)
}.

(** A mapping with the two keys "flash" and "flash_lite". *)
Record by_model (A : Type) : Type := { flash : A; flash_lite : A }.
Arguments flash {A} _.
Arguments flash_lite {A} _.

(** [str(n)] for a question index. *)
Definition str (n : nat) : string := NilEmpty.string_of_uint (Nat.to_uint n).

(** ** The accumulators of [analyze_predictions] *)

Record acc : Type := {
  st_all_scores : by_model (dict (dict R));
  st_story_scores : dict (list R);
  st_story_titles : dict string;
  st_story_tags : dict (list string)
}.

Definition acc_init : acc :=
  {| st_all_scores := {| flash := []; flash_lite := [] |};
     st_story_scores := [];
     st_story_titles := [];
     st_story_tags := [] |}.

(** [if story_id not in table: table[story_id] = {}] followed by
    [table[story_id][question_idx_str] = log_score]. *)
Definition store_score (table : dict (dict R)) (story_id question_idx_str : string)
    (log_score : R) : dict (dict R) :=
  let table1 := if dict_mem table story_id then table else dict_set table story_id [] in
  match dict_get table1 story_id with
  | Some inner => dict_set table1 story_id (dict_set inner question_idx_str log_score)
  | None => table1
  end.

(** The body of the loop over [enumerate(questions)]. *)
Definition process_question (story_id : string) (flash_story flash_lite_story : dict R)
    (st : acc) (question_idx : nat) (question_data : question) : outcome acc :=
  let question_idx_str := str question_idx in
  let actual_answer := answer question_data in
  st1 <- match dict_get flash_story question_idx_str with
         | Some prediction =>
             log_score <- calculate_log_score prediction actual_answer ;;
             Returns
               {| st_all_scores :=
                    {| flash := store_score (flash (st_all_scores st))
                                  story_id question_idx_str log_score;
                       flash_lite := flash_lite (st_all_scores st) |};
                  st_story_scores :=
                    defaultdict_append (st_story_scores st) story_id log_score;
                  st_story_titles := st_story_titles st;
                  st_story_tags := st_story_tags st |}
         | None => Returns st
         end ;;
  match dict_get flash_lite_story question_idx_str with
  | Some prediction =>
      log_score <- calculate_log_score prediction actual_answer ;;
      Returns
        {| st_all_scores :=
             {| flash := flash (st_all_scores st1);
                flash_lite := store_score (flash_lite (st_all_scores st1))
                                story_id question_idx_str log_score |};
           st_story_scores := st_story_scores st1;
           st_story_titles := st_story_titles st1;
           st_story_tags := st_story_tags st1 |}
  | None => Returns st1
  end.

Fixpoint process_questions (story_id : string) (flash_story flash_lite_story : dict R)
    (st : acc) (question_idx : nat) (qs : list question) : outcome acc :=
  match qs with
  | [] => Returns st
  | question_data :: rest =>
      st1 <- process_question story_id flash_story flash_lite_story
               st question_idx question_data ;;
      process_questions story_id flash_story flash_lite_story st1 (S question_idx) rest
  end.

(** ["error" in story_data and story_data["error"]]. *)
Definition has_error (story_data : story) : bool :=
  match error story_data with
  | Some b => b
  | None => false
  end.

Definition get_title (story_id : string) (story_data : story) : string :=
  match Title story_data with
  | Some t => t
  | None => ("Story " ++ story_id)%string
  end.

Definition get_tags (story_data : story) : list string :=
  match tags story_data with
  | Some l => l
  | None => []
  end.

Definition get_questions (story_data : story) : list question :=
  match questions story_data with
  | Some l => l
  | None => []
  end.

(** The body of the loop over [results.items()]. *)
Definition process_story (flash_forecasts flash_lite_forecasts : dict (dict R))
    (st : acc) (story_id : string) (story_data : story) : outcome acc :=
  if has_error story_data then Returns st
  else
    let st1 :=
      {| st_all_scores := st_all_scores st;
         st_story_scores := st_story_scores st;
         st_story_titles :=
           dict_set (st_story_titles st) story_id (get_title story_id story_data);
         st_story_tags :=
           dict_set (st_story_tags st) story_id (get_tags story_data) |} in
    match dict_get flash_forecasts story_id, dict_get flash_lite_forecasts story_id with
    | Some flash_story, Some flash_lite_story =>
        process_questions story_id flash_story flash_lite_story st1 0
          (get_questions story_data)
    | _, _ => Returns st1
    end.

Fixpoint process_stories (flash_forecasts flash_lite_forecasts : dict (dict R))
    (st : acc) (results : dict story) : outcome acc :=
  match results with
  | [] => Returns st
  | (story_id, story_data) :: rest =>
      st1 <- process_story flash_forecasts flash_lite_forecasts st story_id story_data ;;
      process_stories flash_forecasts flash_lite_forecasts st1 rest
  end.

(** ** Aggregation *)

(** [{story_id: np.mean(scores) for story_id, scores in story_scores.items()}]. *)
Definition average_by_key (d : dict (list npfloat)) : dict npfloat :=
  map (fun kv => (fst kv, np_mean (snd kv))) d.

Definition story_averages (story_scores : dict (list R)) : dict npfloat :=
  map (fun kv => (fst kv, np_mean (map Fin (snd kv)))) story_scores.

(** [[score for story_scores in table.values() for score in story_scores.values()]]. *)
Definition flatten_scores (table : dict (dict R)) : list R :=
  flat_map (fun kv => values (snd kv)) table.

(** The loop filling [tag_scores]. *)
Definition add_story_tags (story_tags : dict (list string))
    (tag_scores : dict (list npfloat)) (story_id : string) (avg_score : npfloat)
  : dict (list npfloat) :=
  let tags :=
    match dict_get story_tags story_id with
    | Some l => l
    | None => []
    end in
  fold_left (fun ts tag => defaultdict_append ts tag avg_score) tags tag_scores.

Definition collect_tag_scores (story_tags : dict (list string))
    (story_avg_scores : dict npfloat) : dict (list npfloat) :=
  fold_left (fun ts kv => add_story_tags story_tags ts (fst kv) (snd kv))
    story_avg_scores [].

(** The five values returned by [analyze_predictions]. *)
Record report : Type := {
  all_scores : by_model (dict (dict R));
  story_avg_scores : dict npfloat;
  model_avg_scores : by_model npfloat;
  tag_avg_scores : dict npfloat;
  story_titles : dict string
}.

Definition summarize (st : acc) : report :=
  let story_avg := story_averages (st_story_scores st) in
  {| all_scores := st_all_scores st;
     story_avg_scores := story_avg;
     model_avg_scores :=
       {| flash := np_mean (map Fin (flatten_scores (flash (st_all_scores st))));
          flash_lite :=
            np_mean (map Fin (flatten_scores (flash_lite (st_all_scores st)))) |};
     tag_avg_scores := average_by_key (collect_tag_scores (st_story_tags st) story_avg);
     story_titles := st_story_titles st |}.

Definition analyze_predictions (results : dict story)
    (flash_forecasts flash_lite_forecasts : dict (dict R)) : outcome report :=
  st <- process_stories flash_forecasts flash_lite_forecasts acc_init results ;;
  Returns (summarize st).

(** ** Ranking, as in [main] *)

(** [a < b] on floats; false when either is [NaN]. *)
Definition np_lt (a b : npfloat) : bool :=
  match a, b with
  | Fin x, Fin y => if Rlt_dec x y then true else false
  | _, _ => false
  end.

(** Stable insertion: [x] goes before the first element that need not
    precede it. *)
Fixpoint insert_stable {A : Type} (precedes : A -> A -> bool) (x : A) (l : list A)
  : list A :=
  match l with
  | [] => [x]
  | y :: l' =>
      if precedes y x then y :: insert_stable precedes x l' else x :: y :: l'
  end.

(** [sorted(items, key=lambda x: x[1], reverse=reverse)], a stable sort:
    items with equal keys keep their order, also with [reverse=True]. *)
Definition sorted_by_score (reverse : bool) (items : dict npfloat) : dict npfloat :=
  fold_right
    (insert_stable
       (fun y x => if reverse then np_lt (snd x) (snd y) else np_lt (snd y) (snd x)))
    [] items.

(** [sorted(story_avg_scores.items(), key=lambda x: x[1], reverse=True)[:k]];
    [main] takes k = 5. *)
Definition top_stories (k : nat) (story_avg_scores : dict npfloat) : dict npfloat :=
  firstn k (sorted_by_score true story_avg_scores).

(** [sorted(story_avg_scores.items(), key=lambda x: x[1])[:k]]. *)
Definition bottom_stories (k : nat) (story_avg_scores : dict npfloat) : dict npfloat :=
  firstn k (sorted_by_score false story_avg_scores).

(** ** What the loops compute, in closed form *)

(** The scores of one story under one model's forecasts, by question index. *)
Fixpoint scored_entries (forecast : dict R) (question_idx : nat) (qs : list question)
  : dict R :=
  match qs with
  | [] => []
  | q :: rest =>
      match dict_get forecast (str question_idx) with
      | Some prediction =>
          (str question_idx, log_score_value prediction (answer q))
            :: scored_entries forecast (S question_idx) rest
      | None => scored_entries forecast (S question_idx) rest
      end
  end.

(** A per-story entry appears in a dictionary only once it is non-empty. *)
Definition attach {X : Type} (d : dict (list X)) (story_id : string) (entries : list X)
  : dict (list X) :=
  match entries with
  | [] => d
  | _ :: _ => d ++ [(story_id, entries)]
  end.

(** The stories that take part in the scoring: no error flag, and forecast
    by both models. *)
Definition scorable (flash_forecasts flash_lite_forecasts : dict (dict R))
    (kv : string * story) : bool :=
  negb (has_error (snd kv)) && dict_mem flash_forecasts (fst kv)
  && dict_mem flash_lite_forecasts (fst kv).

Definition story_entries (forecasts : dict (dict R)) (kv : string * story) : dict R :=
  match dict_get forecasts (fst kv) with
  | Some forecast => scored_entries forecast 0 (get_questions (snd kv))
  | None => []
  end.

Definition score_table (flash_forecasts flash_lite_forecasts forecasts : dict (dict R))
    (results : dict story) : dict (dict R) :=
  flat_map (fun kv => attach [] (fst kv) (story_entries forecasts kv))
    (filter (scorable flash_forecasts flash_lite_forecasts) results).

Definition score_lists (flash_forecasts flash_lite_forecasts : dict (dict R))
    (results : dict story) : dict (list R) :=
  flat_map (fun kv => attach [] (fst kv) (values (story_entries flash_forecasts kv)))
    (filter (scorable flash_forecasts flash_lite_forecasts) results).

Definition valid_stories (results : dict story) : dict story :=
  filter (fun kv => negb (has_error (snd kv))) results.

Definition final_acc (flash_forecasts flash_lite_forecasts : dict (dict R))
    (results : dict story) : acc :=
  {| st_all_scores :=
       {| flash := score_table flash_forecasts flash_lite_forecasts
                     flash_forecasts results;
          flash_lite := score_table flash_forecasts flash_lite_forecasts
                          flash_lite_forecasts results |};
     st_story_scores := score_lists flash_forecasts flash_lite_forecasts results;
     st_story_titles :=
       map (fun kv => (fst kv, get_title (fst kv) (snd kv))) (valid_stories results);
     st_story_tags :=
       map (fun kv => (fst kv, get_tags (snd kv))) (valid_stories results) |}.

(** Keys written so far by the question loop: indices below [i]. *)
Definition keys_below (i : nat) (inner : dict R) : Prop :=
  forall k, In k (keys inner) -> exists j, (j < i)%nat /\ k = str j.

(** Component-wise concatenation of two accumulators. *)
Definition acc_app (a b : acc) : acc :=
  {| st_all_scores :=
       {| flash := flash (st_all_scores a) ++ flash (st_all_scores b);
          flash_lite := flash_lite (st_all_scores a) ++ flash_lite (st_all_scores b) |};
     st_story_scores := st_story_scores a ++ st_story_scores b;
     st_story_titles := st_story_titles a ++ st_story_titles b;
     st_story_tags := st_story_tags a ++ st_story_tags b |}.

(** No dictionary of the accumulator has an entry for [k] yet. *)
Definition unseen (k : string) (st : acc) : Prop :=
  ~ In k (keys (flash (st_all_scores st))) /\
  ~ In k (keys (flash_lite (st_all_scores st))) /\
  ~ In k (keys (st_story_scores st)) /\
  ~ In k (keys (st_story_titles st)) /\
  ~ In k (keys (st_story_tags st)).

(** ** The scenario of the specification *)

Definition scenario_story : story :=
  {| error := None;
     Title := Some "A";
     tags := Some ["mystery"];
     questions := Some [ {| answer := "yes" |}; {| answer := "no" |} ] |}.

Definition scenario_results : dict story := [("s1", scenario_story)].

(** The forecasts of model m1, passed as [flash_forecasts]. *)
Definition scenario_m1 : dict (dict R) := [("s1", [("0", 0.8); ("1", 0.3)])].

(** The forecasts of model m2, passed as [flash_lite_forecasts]. *)
Definition scenario_m2 : dict (dict R) := [("s1", [("0", 0.6); ("1", 0.4)])].

(** A record with an error flag, and the scenario preceded by it. *)
Definition scenario_error_story : story :=
  {| error := Some true;
     Title := Some "B";
     tags := Some ["mystery"];
     questions := Some [ {| answer := "yes" |} ] |}.

(** What one story may add to a dictionary: nothing, or one entry under its
    own identifier. *)
Definition own_entry {X : Type} (h : string * story -> dict X) : Prop :=
  forall kv, h kv = [] \/ exists x, h kv = [(fst kv, x)].

(** The real value of a float that is not [NaN]. *)
Definition score_of (a : npfloat) : R :=
  match a with
  | Fin r => r
  | NaN => 0
  end.

(** Ranked from the highest score down, and from the lowest score up. *)
Definition descending (x y : string * npfloat) : Prop :=
  score_of (snd y) <= score_of (snd x).

Definition ascending (x y : string * npfloat) : Prop :=
  score_of (snd x) <= score_of (snd y).

Definition ranking_example : dict npfloat :=
  [("a", Fin (-0.1)); ("b", Fin (-0.5)); ("c", Fin (-0.05))].



(** The scenario with a second story, and the same data enumerated in
    another order. *)
Definition scenario_two_results : dict story :=
  [("s0", scenario_error_story); ("s1", scenario_story)].



(** ** The ranking of [main_2] *)

(** [sorted_stories[:5]], with [sorted_stories] sorted by ascending score. *)
Definition main_2_least (story_avg_scores : dict npfloat) : dict npfloat :=
  let sorted_stories := sorted_by_score false story_avg_scores in
  firstn 5 sorted_stories.

(** [sorted_stories[-5::][::-1]]: the last five, the highest first. *)
Definition main_2_most (story_avg_scores : dict npfloat) : dict npfloat :=
  let sorted_stories := sorted_by_score false story_avg_scores in
  rev (skipn (length sorted_stories - 5) sorted_stories).

(** [table.get(story_id, {}).get(k)] on a table of per-story dictionaries. *)
Definition lookup2 {V : Type} (table : dict (dict V)) (story_id k : string)
  : option V :=
  match dict_get table story_id with
  | Some inner => dict_get inner k
  | None => None
  end.

(** The score of question [i] of a story under one model's forecasts for
    that story: none without such a question or without a forecast. *)
Definition question_score (qs : list question) (forecast : dict R) (i : nat)
  : option R :=
  match nth_error qs i with
  | Some q =>
      match dict_get forecast (str i) with
      | Some prediction => Some (log_score_value prediction (answer q))
      | None => None
      end
  | None => None
  end.




(** The scores of the forecast questions of a story, by increasing index. *)
Definition forecast_scores (qs : list question) (forecast : dict R) : list R :=
  flat_map
    (fun i => match question_score qs forecast i with
              | Some s => [s]
              | None => []
              end)
    (seq 0 (length qs)).

(** ** Dictionary lemmas *)

Section DictFacts.
Context {V : Type}.
Implicit Types (d : dict V) (k : string) (v : V).

Lemma dict_get_None d k : ~ In k (keys d) -> dict_get d k = None.
Proof.
  induction d as [| [k' v'] d IH]; simpl; intros Hk; [reflexivity |].
  destruct (String.eqb_spec k' k) as [-> | Hne].
  - exfalso. apply Hk. now left.
  - apply IH. intros Hin. apply Hk. now right.
Qed.

Lemma dict_get_Some_In d k v : dict_get d k = Some v -> In (k, v) d.
Proof.
  induction d as [| [k' v'] d IH]; simpl; [discriminate |].
  destruct (String.eqb_spec k' k) as [-> | Hne]; intros H.
  - injection H as ->. now left.
  - right. now apply IH.
Qed.

Lemma dict_get_In_keys d k v : dict_get d k = Some v -> In k (keys d).
Proof.
  intros H. apply dict_get_Some_In in H.
  unfold keys. change k with (fst (k, v)). now apply in_map.
Qed.

Lemma dict_mem_false d k : ~ In k (keys d) -> dict_mem d k = false.
Proof.
  intros H. unfold dict_mem. now rewrite dict_get_None.
Qed.

Lemma dict_mem_true_In d k : dict_mem d k = true -> In k (keys d).
Proof.
  unfold dict_mem. destruct (dict_get d k) as [v |] eqn:E; [| discriminate].
  intros _. eapply dict_get_In_keys; eassumption.
Qed.

Lemma dict_get_snoc d k v : ~ In k (keys d) -> dict_get (d ++ [(k, v)]) k = Some v.
Proof.
  induction d as [| [k' v'] d IH]; simpl; intros Hk.
  - now rewrite String.eqb_refl.
  - destruct (String.eqb_spec k' k) as [-> | Hne].
    + exfalso. apply Hk. now left.
    + apply IH. intros Hin. apply Hk. now right.
Qed.

Lemma dict_set_fresh d k v : ~ In k (keys d) -> dict_set d k v = d ++ [(k, v)].
Proof.
  induction d as [| [k' v'] d IH]; simpl; intros Hk; [reflexivity |].
  destruct (String.eqb_spec k' k) as [-> | Hne].
  - exfalso. apply Hk. now left.
  - f_equal. apply IH. intros Hin. apply Hk. now right.
Qed.

Lemma dict_set_snoc d k v v' :
  ~ In k (keys d) -> dict_set (d ++ [(k, v)]) k v' = d ++ [(k, v')].
Proof.
  induction d as [| [k' w] d IH]; simpl; intros Hk.
  - now rewrite String.eqb_refl.
  - destruct (String.eqb_spec k' k) as [-> | Hne].
    + exfalso. apply Hk. now left.
    + f_equal. apply IH. intros Hin. apply Hk. now right.
Qed.

Lemma keys_app d1 d2 : keys (d1 ++ d2) = keys d1 ++ keys d2.
Proof. apply map_app. Qed.

(** Lookup in a dictionary with distinct keys finds every item. *)
Lemma dict_get_In d k v : NoDup (keys d) -> In (k, v) d -> dict_get d k = Some v.
Proof.
  induction d as [| [k' v'] d IH]; simpl; intros Hnd Hin; [contradiction |].
  inversion Hnd as [| ? ? Hk' Hnd']; subst.
  destruct Hin as [E | Hin].
  - injection E as -> ->. now rewrite String.eqb_refl.
  - destruct (String.eqb_spec k' k) as [-> | Hne].
    + exfalso. apply Hk'. change k with (fst (k, v)). now apply in_map.
    + now apply IH.
Qed.

End DictFacts.

Lemma str_inj (n m : nat) : str n = str m -> n = m.
Proof.
  unfold str. intros H.
  apply Unsigned.to_uint_inj.
  assert (E : NilEmpty.uint_of_string (NilEmpty.string_of_uint (Nat.to_uint n))
              = NilEmpty.uint_of_string (NilEmpty.string_of_uint (Nat.to_uint m)))
    by now rewrite H.
  rewrite !NilEmpty.usu in E.
  now injection E.
Qed.

Example str_0 : str 0 = "0".
Proof. reflexivity. Qed.

Example str_12 : str 12 = "12".
Proof. reflexivity. Qed.

(** ** Basic facts on the scoring rule *)

Lemma Rmax_clip_pos (x : R) : 0 < Rmax x 0.01.
Proof.
  unfold Rmax. destruct (Rle_dec x 0.01); lra.
Qed.

Lemma math_log_pos (x : R) : 0 < x -> math_log x = Returns (ln x).
Proof.
  intros Hx. unfold math_log. destruct (Rlt_dec 0 x); [reflexivity | contradiction].
Qed.

Lemma calculate_log_score_yes (p : R) :
  calculate_log_score p "yes" = Returns (ln (Rmax p 0.01)).
Proof.
  unfold calculate_log_score. simpl. apply math_log_pos, Rmax_clip_pos.
Qed.

Lemma calculate_log_score_not_yes (p : R) (actual : string) :
  actual <> "yes" ->
  calculate_log_score p actual = Returns (ln (Rmax (1 - p) 0.01)).
Proof.
  intros Hne. unfold calculate_log_score.
  destruct (String.eqb_spec actual "yes") as [E | _]; [contradiction |].
  apply math_log_pos, Rmax_clip_pos.
Qed.

Lemma calculate_log_score_returns (p : R) (actual : string) :
  calculate_log_score p actual = Returns (log_score_value p actual).
Proof.
  unfold log_score_value.
  destruct (String.eqb_spec actual "yes") as [-> | Hne].
  - apply calculate_log_score_yes.
  - now apply calculate_log_score_not_yes.
Qed.

Lemma ln_le_mono (x y : R) : 0 < x -> x <= y -> ln x <= ln y.
Proof.
  intros Hx [Hlt | ->]; [left; now apply ln_increasing | right; reflexivity].
Qed.

Lemma clip_unit (x : R) : x <= 1 -> clip x 0.01 1 = Rmax x 0.01.
Proof.
  intros Hx. unfold clip, Rmin, Rmax.
  destruct (Rle_dec x 0.01); destruct (Rle_dec _ 1); lra.
Qed.

Lemma Rmax_clip_left (x : R) : 0.01 <= x -> Rmax x 0.01 = x.
Proof.
  intros Hx. unfold Rmax. destruct (Rle_dec x 0.01); lra.
Qed.

Lemma Rmax_clip_right (x : R) : x <= 0.01 -> Rmax x 0.01 = 0.01.
Proof.
  intros Hx. unfold Rmax. destruct (Rle_dec x 0.01); lra.
Qed.

(** ** The scoring rule: C1, C4, C5, C6 *)

(** C1, as stated, fails: for the ground truth "ambiguous" the function
    returns a log score, the one of a "no" answer, instead of failing. *)
Lemma score_ambiguous_returns :
  calculate_log_score 0.5 "ambiguous" = Returns (ln 0.5).
Proof.
  rewrite calculate_log_score_not_yes by discriminate.
  rewrite Rmax_clip_left by lra. f_equal. f_equal. lra.
Qed.

(** C1 (amended): for every prediction p and every actual value that is
    neither "yes" nor "no", score(p, actual) does not fail; it returns
    ln(max(1 - p, 0.01)), the score of the answer "no". *)
Theorem score_malformed_as_no (p : R) (actual : string) :
  actual <> "yes" -> actual <> "no" ->
  calculate_log_score p actual = Returns (ln (Rmax (1 - p) 0.01)) /\
  calculate_log_score p actual = calculate_log_score p "no".
Proof.
  intros Hy _. split.
  - now apply calculate_log_score_not_yes.
  - rewrite !calculate_log_score_returns. unfold log_score_value.
    destruct (String.eqb_spec actual "yes"); [contradiction | reflexivity].
Qed.

Lemma score_malformed_as_no_witness :
  calculate_log_score 0.5 "ambiguous" = Returns (ln (Rmax (1 - 0.5) 0.01)) /\
  calculate_log_score 0.5 "ambiguous" = calculate_log_score 0.5 "no".
Proof.
  apply (score_malformed_as_no 0.5 "ambiguous"); discriminate.
Defined.




(** C5: for p in [0, 1], score(p, "yes") = ln(clip(p, 0.01, 1.0)) and
    score(p, "no") = ln(clip(1-p, 0.01, 1.0)); in particular
    score(0.0, "yes") = score(0.01, "yes") = ln(0.01) and
    score(1.0, "no") = ln(0.01). *)
Theorem score_is_ln_clip (p : R) :
  0 <= p <= 1 ->
  calculate_log_score p "yes" = Returns (ln (clip p 0.01 1)) /\
  calculate_log_score p "no" = Returns (ln (clip (1 - p) 0.01 1)) /\
  calculate_log_score 0 "yes" = Returns (ln 0.01) /\
  calculate_log_score 0.01 "yes" = Returns (ln 0.01) /\
  calculate_log_score 1 "no" = Returns (ln 0.01).
Proof.
  intros [H0 H1]. repeat split.
  - rewrite calculate_log_score_yes, clip_unit by lra. reflexivity.
  - rewrite calculate_log_score_not_yes by discriminate.
    rewrite clip_unit by lra. reflexivity.
  - rewrite calculate_log_score_yes, Rmax_clip_right by lra. reflexivity.
  - rewrite calculate_log_score_yes, Rmax_clip_right by lra. reflexivity.
  - rewrite calculate_log_score_not_yes by discriminate.
    rewrite Rmax_clip_right by lra. reflexivity.
Qed.

Lemma score_is_ln_clip_witness :
  0 <= 0.5 <= 1 /\
  calculate_log_score 0.5 "yes" = Returns (ln (clip 0.5 0.01 1)) /\
  calculate_log_score 0.5 "no" = Returns (ln (clip (1 - 0.5) 0.01 1)).
Proof.
  assert (H : 0 <= 0.5 <= 1) by lra.
  split; [exact H |].
  destruct (score_is_ln_clip 0.5 H) as (Hy & Hn & _).
  split; [exact Hy | exact Hn].
Defined.

(** C6: for every prediction p in [0, 1] and every actual in
    {"yes", "no"}, the log score score(p, actual) is at most 0. *)
Theorem score_nonpositive (p : R) (actual : string) :
  0 <= p <= 1 ->
  actual = "yes" \/ actual = "no" ->
  exists s, calculate_log_score p actual = Returns s /\ s <= 0.
Proof.
  intros [H0 H1] Hact.
  exists (log_score_value p actual). split.
  - apply calculate_log_score_returns.
  - rewrite <- ln_1. unfold log_score_value.
    destruct Hact as [-> | ->]; simpl;
      (apply ln_le_mono; [apply Rmax_clip_pos |]);
      unfold Rmax; destruct (Rle_dec _ 0.01); lra.
Qed.

Lemma score_nonpositive_witness :
  0 <= 0.3 <= 1 /\
  exists s, calculate_log_score 0.3 "no" = Returns s /\ s <= 0.
Proof.
  assert (H : 0 <= 0.3 <= 1) by lra.
  split; [exact H |].
  apply (score_nonpositive 0.3 "no" H). right. reflexivity.
Defined.

(** ** The question loop in closed form *)

Lemma attach_snoc {X : Type} (d : dict (list X)) (story_id : string)
    (l : list X) (x : X) :
  attach d story_id (l ++ [x]) = d ++ [(story_id, l ++ [x])].
Proof.
  unfold attach. destruct (l ++ [x]) eqn:E; [| reflexivity].
  now apply app_eq_nil in E as [_ E].
Qed.

Lemma attach_app {X : Type} (d : dict (list X)) (story_id : string) (l : list X) :
  attach d story_id l = d ++ attach [] story_id l.
Proof.
  destruct l; simpl; [now rewrite app_nil_r | reflexivity].
Qed.

Lemma store_score_attach (table : dict (dict R)) (story_id k : string)
    (inner : dict R) (v : R) :
  ~ In story_id (keys table) ->
  ~ In k (keys inner) ->
  store_score (attach table story_id inner) story_id k v
  = attach table story_id (inner ++ [(k, v)]).
Proof.
  intros Hsid Hk. rewrite attach_snoc. unfold store_score.
  destruct inner as [| e inner]; simpl attach; cbv zeta.
  - rewrite dict_mem_false by assumption.
    rewrite dict_set_fresh by assumption.
    rewrite dict_get_snoc by assumption.
    now rewrite dict_set_snoc by assumption.
  - unfold dict_mem. rewrite !dict_get_snoc by assumption.
    rewrite dict_set_snoc by assumption.
    now rewrite (dict_set_fresh (e :: inner)) by assumption.
Qed.

Lemma defaultdict_append_attach {A : Type} (d : dict (list A)) (story_id : string)
    (l : list A) (x : A) :
  ~ In story_id (keys d) ->
  defaultdict_append (attach d story_id l) story_id x = attach d story_id (l ++ [x]).
Proof.
  intros Hsid. rewrite attach_snoc. unfold defaultdict_append.
  destruct l as [| a l]; simpl attach.
  - rewrite dict_get_None by assumption. now apply dict_set_fresh.
  - rewrite dict_get_snoc by assumption. now apply dict_set_snoc.
Qed.

Lemma keys_below_fresh (i : nat) (inner : dict R) :
  keys_below i inner -> ~ In (str i) (keys inner).
Proof.
  intros Hb Hin. destruct (Hb _ Hin) as (j & Hlt & E).
  apply str_inj in E. lia.
Qed.

Lemma keys_below_S (i : nat) (inner : dict R) :
  keys_below i inner -> keys_below (S i) inner.
Proof.
  intros Hb k Hin. destruct (Hb _ Hin) as (j & Hlt & E).
  exists j. split; [lia | exact E].
Qed.

Lemma keys_below_snoc (i : nat) (inner : dict R) (v : R) :
  keys_below i inner -> keys_below (S i) (inner ++ [(str i, v)]).
Proof.
  intros Hb k Hin. rewrite keys_app in Hin. apply in_app_or in Hin as [Hin | Hin].
  - destruct (Hb _ Hin) as (j & Hlt & E). exists j. split; [lia | exact E].
  - simpl in Hin. destruct Hin as [<- | []]. exists i. split; [lia | reflexivity].
Qed.

Lemma process_questions_attach (story_id : string) (flash_story flash_lite_story : dict R)
    (qs : list question) :
  forall (i : nat) (ft lt : dict (dict R)) (ss : dict (list R))
         (titles : dict string) (tagd : dict (list string))
         (fi li : dict R) (sc : list R),
    ~ In story_id (keys ft) -> ~ In story_id (keys lt) -> ~ In story_id (keys ss) ->
    keys_below i fi -> keys_below i li ->
    process_questions story_id flash_story flash_lite_story
      {| st_all_scores := {| flash := attach ft story_id fi;
                             flash_lite := attach lt story_id li |};
         st_story_scores := attach ss story_id sc;
         st_story_titles := titles;
         st_story_tags := tagd |} i qs
    = Returns
        {| st_all_scores :=
             {| flash := attach ft story_id (fi ++ scored_entries flash_story i qs);
                flash_lite :=
                  attach lt story_id (li ++ scored_entries flash_lite_story i qs) |};
           st_story_scores :=
             attach ss story_id (sc ++ values (scored_entries flash_story i qs));
           st_story_titles := titles;
           st_story_tags := tagd |}.
Proof.
  induction qs as [| q qs IH]; intros i ft lt ss titles tagd fi li sc Hft Hlt Hss Hfi Hli.
  - simpl. now rewrite !app_nil_r.
  - simpl process_questions. unfold process_question.
    simpl scored_entries.
    destruct (dict_get flash_story (str i)) as [pf |];
      destruct (dict_get flash_lite_story (str i)) as [pl |];
      rewrite ?calculate_log_score_returns; simpl bind; cbn [st_all_scores
        st_story_scores st_story_titles st_story_tags flash flash_lite];
      rewrite ?store_score_attach, ?defaultdict_append_attach
        by (assumption || now apply keys_below_fresh).
    + rewrite IH by (assumption || now apply keys_below_snoc).
      simpl values. now rewrite <- !app_assoc.
    + rewrite IH by (assumption || now apply keys_below_snoc || now apply keys_below_S).
      simpl values. now rewrite <- !app_assoc.
    + rewrite IH by (assumption || now apply keys_below_snoc || now apply keys_below_S).
      now rewrite <- !app_assoc.
    + rewrite IH by (assumption || now apply keys_below_S). reflexivity.
Qed.

(** ** The story loop in closed form *)

Section StoryLoop.
Variables flash_forecasts flash_lite_forecasts : dict (dict R).

Let final := final_acc flash_forecasts flash_lite_forecasts.
Let step := process_story flash_forecasts flash_lite_forecasts.

Lemma final_acc_cons (kv : string * story) (results : dict story) :
  final (kv :: results) = acc_app (final [kv]) (final results).
Proof.
  unfold final, final_acc, acc_app, score_table, score_lists, valid_stories.
  simpl.
  destruct (scorable flash_forecasts flash_lite_forecasts kv);
    destruct (negb (has_error (snd kv))); simpl; rewrite ?app_nil_r; reflexivity.
Qed.

Lemma acc_app_assoc (a b c : acc) : acc_app (acc_app a b) c = acc_app a (acc_app b c).
Proof.
  unfold acc_app. simpl. now rewrite !app_assoc.
Qed.

Lemma acc_app_nil (a : acc) : acc_app a (final []) = a.
Proof.
  destruct a as [[f l] s t g]. unfold acc_app. simpl. now rewrite !app_nil_r.
Qed.

Lemma keys_attach_nil {X : Type} (story_id k : string) (l : list X) :
  In k (keys (attach [] story_id l)) -> k = story_id.
Proof.
  destruct l; simpl; [contradiction | intros [E | []]; now symmetry].
Qed.

(** One story only ever writes under its own identifier. *)
Lemma unseen_step (st : acc) (kv : string * story) (k : string) :
  unseen k st -> k <> fst kv -> unseen k (acc_app st (final [kv])).
Proof.
  intros (H1 & H2 & H3 & H4 & H5) Hne.
  unfold unseen, acc_app, final, final_acc, score_table, score_lists, valid_stories.
  simpl.
  destruct (scorable flash_forecasts flash_lite_forecasts kv);
    destruct (negb (has_error (snd kv))); simpl;
    rewrite ?app_nil_r, ?keys_app;
    repeat split; try assumption;
    intros Hin; apply in_app_or in Hin as [Hin | Hin];
    try contradiction;
    try (apply keys_attach_nil in Hin; contradiction);
    simpl in Hin; destruct Hin as [E | []]; now apply Hne.
Qed.

Lemma process_story_final (st : acc) (story_id : string) (story_data : story) :
  unseen story_id st ->
  step st story_id story_data = Returns (acc_app st (final [(story_id, story_data)])).
Proof.
  intros (H1 & H2 & H3 & H4 & H5).
  destruct st as [[ft lt] ss titles tagd]. simpl in H1, H2, H3, H4, H5.
  unfold step, process_story, final, final_acc, acc_app, score_table, score_lists,
    valid_stories, scorable, story_entries, dict_mem.
  simpl.
  destruct (has_error story_data); simpl.
  - now rewrite !app_nil_r.
  - rewrite !dict_set_fresh by assumption.
    destruct (dict_get flash_forecasts story_id) as [fs |] eqn:Ef;
      [destruct (dict_get flash_lite_forecasts story_id) as [fls |] eqn:El |];
      simpl; rewrite ?Ef, ?El, ?app_nil_r; try reflexivity.
    pose proof (process_questions_attach story_id fs fls (get_questions story_data)
                  0 ft lt ss (titles ++ [(story_id, get_title story_id story_data)])
                  (tagd ++ [(story_id, get_tags story_data)]) [] [] []
                  H1 H2 H3) as Hq.
    simpl in Hq. rewrite Hq by (intros k []).
    rewrite (attach_app ft), (attach_app lt), (attach_app ss). reflexivity.
Qed.

Lemma process_stories_final (results : dict story) :
  forall st : acc,
    NoDup (keys results) ->
    (forall k, In k (keys results) -> unseen k st) ->
    process_stories flash_forecasts flash_lite_forecasts st results
    = Returns (acc_app st (final results)).
Proof.
  induction results as [| [story_id story_data] results IH]; intros st Hnd Hun.
  - simpl. now rewrite acc_app_nil.
  - simpl process_stories. simpl in Hnd. inversion Hnd as [| ? ? Hfresh Hnd']; subst.
    fold step. rewrite process_story_final by (apply Hun; now left).
    simpl bind. rewrite IH.
    + now rewrite (final_acc_cons (story_id, story_data) results), acc_app_assoc.
    + exact Hnd'.
    + intros k Hk. apply unseen_step.
      * apply Hun. now right.
      * simpl. intros ->. contradiction.
Qed.

Lemma unseen_init (k : string) : unseen k acc_init.
Proof.
  unfold unseen, acc_init. simpl. tauto.
Qed.

(** With distinct story identifiers, [analyze_predictions] returns, and
    its accumulators are the closed forms. *)
Lemma analyze_predictions_final (results : dict story) :
  NoDup (keys results) ->
  analyze_predictions results flash_forecasts flash_lite_forecasts
  = Returns (summarize (final results)).
Proof.
  intros Hnd. unfold analyze_predictions.
  rewrite process_stories_final by (assumption || intros; apply unseen_init).
  simpl. f_equal.
Qed.
End StoryLoop.

(** ** The per-story average: C2, C10 *)

Lemma scenario_nodup : NoDup (keys scenario_results).
Proof.
  repeat constructor. simpl. tauto.
Qed.

Lemma scenario_report :
  analyze_predictions scenario_results scenario_m1 scenario_m2
  = Returns
      {| all_scores :=
           {| flash := [("s1", [("0", ln 0.8); ("1", ln 0.7)])];
              flash_lite := [("s1", [("0", ln 0.6); ("1", ln 0.6)])] |};
         story_avg_scores := [("s1", Fin (mean [ln 0.8; ln 0.7]))];
         model_avg_scores :=
           {| flash := Fin (mean [ln 0.8; ln 0.7]);
              flash_lite := Fin (mean [ln 0.6; ln 0.6]) |};
         tag_avg_scores := [("mystery", Fin (mean [mean [ln 0.8; ln 0.7]]))];
         story_titles := [("s1", "A")] |}.
Proof.
  rewrite analyze_predictions_final by exact scenario_nodup.
  unfold summarize, final_acc, score_table, score_lists, valid_stories, scorable,
    story_entries, scenario_results, scenario_m1, scenario_m2, scenario_story,
    dict_mem.
  simpl. unfold log_score_value, get_title, mean. simpl.
  rewrite !Rmax_clip_left by lra.
  replace (1 - 0.3) with 0.7 by lra.
  replace (1 - 0.4) with 0.6 by lra.
  reflexivity.
Qed.

Lemma scenario_means_differ :
  mean [ln 0.8; ln 0.7] <> mean [ln 0.8; ln 0.7; ln 0.6; ln 0.6].
Proof.
  assert (H : ln 0.6 + ln 0.6 < ln 0.8 + ln 0.7).
  { rewrite <- !ln_mult by lra. apply ln_increasing; lra. }
  unfold mean. simpl. lra.
Qed.

(** C2, as stated, fails: in the scenario the average of story "s1" is the
    mean of the two scores of the first model only, which differs from the
    mean of the four scores of both models. *)
Lemma scenario_average_not_pooled :
  exists rep,
    analyze_predictions scenario_results scenario_m1 scenario_m2 = Returns rep /\
    dict_get (story_avg_scores rep) "s1" = Some (Fin (mean [ln 0.8; ln 0.7])) /\
    dict_get (story_avg_scores rep) "s1"
    <> Some (Fin (mean [ln 0.8; ln 0.7; ln 0.6; ln 0.6])).
Proof.
  eexists. split; [apply scenario_report |]. simpl. split; [reflexivity |].
  intros H. injection H as H. now apply scenario_means_differ.
Qed.

(** C2 (amended): in the scenario the per-story score list holds the
    LogScores of the first model ("flash") only: story_avg_scores["s1"]
    equals mean([ln(0.8), ln(0.7)]); the scores of the second model,
    ln(0.6) and ln(0.6), are recorded in all_scores only. *)
Theorem scenario_average_flash_only :
  exists rep,
    analyze_predictions scenario_results scenario_m1 scenario_m2 = Returns rep /\
    dict_get (story_avg_scores rep) "s1" = Some (Fin (mean [ln 0.8; ln 0.7])) /\
    dict_get (flash (all_scores rep)) "s1" = Some [("0", ln 0.8); ("1", ln 0.7)] /\
    dict_get (flash_lite (all_scores rep)) "s1" = Some [("0", ln 0.6); ("1", ln 0.6)].
Proof.
  eexists. split; [apply scenario_report |]. simpl. repeat split.
Qed.

Lemma np_sum_Fin (l : list R) : np_sum (map Fin l) = Fin (fold_right Rplus 0 l).
Proof.
  unfold np_sum. induction l as [| x l IH]; simpl; [reflexivity |].
  now rewrite IH.
Qed.

(** On a non-empty list of scores [np.mean] is the arithmetic mean. *)
Lemma np_mean_Fin (l : list R) : l <> [] -> np_mean (map Fin l) = Fin (mean l).
Proof.
  intros Hl. destruct l as [| x l]; [contradiction |].
  unfold np_mean, mean. rewrite np_sum_Fin, length_map. reflexivity.
Qed.

Lemma averages_from_table (g : string * story -> dict R) (l : dict story)
    (s : string) (avg : npfloat) :
  dict_get
    (story_averages (flat_map (fun kv => attach [] (fst kv) (values (g kv))) l)) s
  = Some avg ->
  exists scores,
    dict_get (flat_map (fun kv => attach [] (fst kv) (g kv)) l) s = Some scores /\
    scores <> [] /\
    avg = Fin (mean (values scores)).
Proof.
  unfold story_averages.
  induction l as [| kv l IH]; simpl; [discriminate |].
  destruct (g kv) as [| e es] eqn:Eg; simpl; [exact IH |].
  destruct (String.eqb (fst kv) s).
  - intros H. injection H as <-. exists (e :: es).
    split; [reflexivity |]. split; [discriminate |].
    now rewrite <- np_mean_Fin.
  - exact IH.
Qed.

(** Every story average is a number: its score list is never empty. *)
Lemma story_averages_finite (g : string * story -> list R) (l : dict story) :
  Forall (fun kv => snd kv <> NaN)
    (story_averages (flat_map (fun kv => attach [] (fst kv) (g kv)) l)).
Proof.
  unfold story_averages.
  induction l as [| kv l IH]; cbn [flat_map map]; [constructor |].
  destruct (g kv) as [| e es] eqn:Eg; cbn [attach app map]; [exact IH |].
  constructor; [| exact IH]. cbn [snd].
  rewrite (np_mean_Fin (e :: es)) by discriminate. discriminate.
Qed.

Lemma scorable_lite_ext (ff fl fl' : dict (dict R)) (kv : string * story) :
  (forall s, dict_mem fl s = dict_mem fl' s) ->
  scorable ff fl kv = scorable ff fl' kv.
Proof.
  intros H. unfold scorable. now rewrite H.
Qed.

(** C10: every story id s of story_avg_scores is a key of
    all_scores["flash"], and story_avg_scores[s] is the arithmetic mean of
    the values of all_scores["flash"][s]; the forecasts of the flash-lite
    model do not contribute: other flash-lite forecasts for the same
    stories give the same story_avg_scores. *)
Theorem story_average_is_flash_mean (results : dict story)
    (flash_forecasts flash_lite_forecasts other_lite_forecasts : dict (dict R)) :
  NoDup (keys results) ->
  (forall s, dict_mem flash_lite_forecasts s = dict_mem other_lite_forecasts s) ->
  exists rep rep',
    analyze_predictions results flash_forecasts flash_lite_forecasts = Returns rep /\
    analyze_predictions results flash_forecasts other_lite_forecasts = Returns rep' /\
    story_avg_scores rep' = story_avg_scores rep /\
    forall s avg,
      dict_get (story_avg_scores rep) s = Some avg ->
      exists scores,
        dict_get (flash (all_scores rep)) s = Some scores /\
        scores <> [] /\
        avg = Fin (mean (values scores)).
Proof.
  intros Hnd Hmem.
  do 2 eexists. split; [now apply analyze_predictions_final |].
  split; [now apply analyze_predictions_final |].
  simpl. split.
  - unfold score_lists. f_equal. f_equal. apply filter_ext.
    intros kv. symmetry. now apply scorable_lite_ext.
  - intros s avg. apply averages_from_table.
Qed.

Lemma story_average_is_flash_mean_witness :
  exists rep rep',
    analyze_predictions scenario_results scenario_m1 scenario_m2 = Returns rep /\
    analyze_predictions scenario_results scenario_m1 [("s1", [])] = Returns rep' /\
    story_avg_scores rep' = story_avg_scores rep /\
    forall s avg,
      dict_get (story_avg_scores rep) s = Some avg ->
      exists scores,
        dict_get (flash (all_scores rep)) s = Some scores /\
        scores <> [] /\
        avg = Fin (mean (values scores)).
Proof.
  apply (story_average_is_flash_mean scenario_results scenario_m1 scenario_m2
           [("s1", [])]).
  - repeat constructor. simpl. tauto.
  - intros s. unfold dict_mem, scenario_m2. cbn [dict_get].
    destruct (String.eqb "s1" s); reflexivity.
Defined.

(** ** Stories left out of the scoring: C3, C7 *)

Lemma NoDup_keys_unique {V : Type} (d : dict V) (k : string) (v v' : V) :
  NoDup (keys d) -> In (k, v) d -> In (k, v') d -> v = v'.
Proof.
  intros Hnd H1 H2.
  apply (dict_get_In _ _ _ Hnd) in H1. apply (dict_get_In _ _ _ Hnd) in H2.
  congruence.
Qed.

Lemma dict_get_middle_other {V : Type} (d1 d2 : dict V) (k k' : string) (v : V) :
  k <> k' -> dict_get (d1 ++ (k, v) :: d2) k' = dict_get (d1 ++ d2) k'.
Proof.
  intros Hne. induction d1 as [| [k1 v1] d1 IH]; simpl.
  - destruct (String.eqb_spec k k'); [contradiction | reflexivity].
  - now rewrite IH.
Qed.

Lemma keys_story_averages (d : dict (list R)) : keys (story_averages d) = keys d.
Proof.
  unfold story_averages, keys. rewrite map_map. reflexivity.
Qed.

(** Every key of a table built from the selected stories is one of them. *)
Lemma keys_table_selected {X : Type} (p : string * story -> bool)
    (g : string * story -> list X) (l : dict story) (k : string) :
  In k (keys (flat_map (fun kv => attach [] (fst kv) (g kv)) (filter p l))) ->
  exists data, In (k, data) l /\ p (k, data) = true.
Proof.
  induction l as [| [k1 d1] l IH]; simpl; [contradiction |].
  destruct (p (k1, d1)) eqn:Ep; simpl.
  - rewrite keys_app. intros Hin. apply in_app_or in Hin as [Hin | Hin].
    + apply keys_attach_nil in Hin. subst k. exists d1. split; [now left | exact Ep].
    + destruct (IH Hin) as (data & Hd & Hp). exists data. split; [now right | exact Hp].
  - intros Hin. destruct (IH Hin) as (data & Hd & Hp).
    exists data. split; [now right | exact Hp].
Qed.

Lemma keys_map_selected {X : Type} (p : string * story -> bool)
    (g : string * story -> X) (l : dict story) (k : string) :
  In k (keys (map (fun kv => (fst kv, g kv)) (filter p l))) ->
  exists data, In (k, data) l /\ p (k, data) = true.
Proof.
  unfold keys. rewrite map_map. simpl. intros Hin.
  apply in_map_iff in Hin as ([k1 d1] & E & Hin). simpl in E. subst k1.
  apply filter_In in Hin as [Hin Hp]. now exists d1.
Qed.

Section LeftOut.
Variables flash_forecasts flash_lite_forecasts : dict (dict R).
Variables (l1 l2 : dict story) (story_id : string) (story_data : story).

Let results := l1 ++ (story_id, story_data) :: l2.
Let final := final_acc flash_forecasts flash_lite_forecasts.
Let joined := scorable flash_forecasts flash_lite_forecasts.

Hypothesis Hnd : NoDup (keys results).

Lemma NoDup_without : NoDup (keys (l1 ++ l2)).
Proof.
  unfold results, keys in Hnd. rewrite map_app in Hnd. simpl in Hnd.
  apply NoDup_remove_1 in Hnd. unfold keys. now rewrite map_app.
Qed.

Lemma only_record (data : story) : In (story_id, data) results -> data = story_data.
Proof.
  intros Hin. eapply NoDup_keys_unique; [exact Hnd | exact Hin |].
  unfold results. apply in_or_app. right. now left.
Qed.

Lemma not_joined_no_table {X : Type} (g : string * story -> list X) :
  joined (story_id, story_data) = false ->
  ~ In story_id
      (keys (flat_map (fun kv => attach [] (fst kv) (g kv)) (filter joined results))).
Proof.
  intros Hj Hin. apply keys_table_selected in Hin as (data & Hd & Hp).
  apply only_record in Hd. subst data. congruence.
Qed.

Lemma not_joined_same_table {X : Type} (g : string * story -> list X) :
  joined (story_id, story_data) = false ->
  flat_map (fun kv => attach [] (fst kv) (g kv)) (filter joined results)
  = flat_map (fun kv => attach [] (fst kv) (g kv)) (filter joined (l1 ++ l2)).
Proof.
  intros Hj. unfold results. rewrite !filter_app. simpl. now rewrite Hj.
Qed.

Lemma error_not_joined : has_error story_data = true -> joined (story_id, story_data) = false.
Proof.
  intros He. unfold joined, scorable. simpl. now rewrite He.
Qed.

Lemma absent_not_joined :
  dict_mem flash_forecasts story_id = false \/
  dict_mem flash_lite_forecasts story_id = false ->
  joined (story_id, story_data) = false.
Proof.
  unfold joined, scorable. simpl.
  intros [H | H]; rewrite H; destruct (has_error story_data);
    simpl; auto using andb_false_r.
Qed.

Lemma error_same_final : has_error story_data = true -> final results = final (l1 ++ l2).
Proof.
  intros He. pose proof (error_not_joined He) as Hj.
  unfold final, final_acc, score_table, score_lists. fold joined.
  rewrite !not_joined_same_table by exact Hj.
  unfold valid_stories, results. rewrite !filter_app. simpl. now rewrite He.
Qed.

Lemma error_no_title (g : string * story -> string) :
  has_error story_data = true ->
  ~ In story_id (keys (map (fun kv => (fst kv, g kv)) (valid_stories results))).
Proof.
  intros He Hin. apply keys_map_selected in Hin as (data & Hd & Hp).
  apply only_record in Hd. subst data. simpl in Hp. rewrite He in Hp. discriminate.
Qed.
End LeftOut.

(** C7: a story whose record carries a truthy error flag is skipped
    entirely: the report is the one obtained without that record (so none of
    its questions is scored and it contributes to no tag average), and the
    story id is a key of neither all_scores, story_avg_scores nor
    story_titles. *)
Theorem error_story_skipped (flash_forecasts flash_lite_forecasts : dict (dict R))
    (l1 l2 : dict story) (story_id : string) (story_data : story) :
  NoDup (keys (l1 ++ (story_id, story_data) :: l2)) ->
  has_error story_data = true ->
  exists rep,
    analyze_predictions (l1 ++ (story_id, story_data) :: l2)
      flash_forecasts flash_lite_forecasts = Returns rep /\
    analyze_predictions (l1 ++ l2) flash_forecasts flash_lite_forecasts = Returns rep /\
    ~ In story_id (keys (flash (all_scores rep))) /\
    ~ In story_id (keys (flash_lite (all_scores rep))) /\
    ~ In story_id (keys (story_avg_scores rep)) /\
    ~ In story_id (keys (story_titles rep)).
Proof.
  intros Hnd He.
  pose proof (error_not_joined flash_forecasts flash_lite_forecasts
                story_id story_data He) as Hj.
  eexists. split; [now apply analyze_predictions_final |].
  split.
  - rewrite analyze_predictions_final by (eapply NoDup_without; exact Hnd).
    now rewrite error_same_final by exact He.
  - simpl. rewrite keys_story_averages.
    repeat split.
    + now apply not_joined_no_table.
    + now apply not_joined_no_table.
    + now apply not_joined_no_table.
    + now apply error_no_title.
Qed.

Lemma error_story_skipped_witness :
  exists rep,
    analyze_predictions ([] ++ ("s0", scenario_error_story) :: scenario_results)
      scenario_m1 scenario_m2 = Returns rep /\
    analyze_predictions ([] ++ scenario_results) scenario_m1 scenario_m2 = Returns rep /\
    ~ In "s0" (keys (flash (all_scores rep))) /\
    ~ In "s0" (keys (flash_lite (all_scores rep))) /\
    ~ In "s0" (keys (story_avg_scores rep)) /\
    ~ In "s0" (keys (story_titles rep)).
Proof.
  apply (error_story_skipped scenario_m1 scenario_m2 [] scenario_results
           "s0" scenario_error_story).
  - repeat constructor; simpl; intuition discriminate.
  - reflexivity.
Defined.

Lemma own_entry_keys {X : Type} (h : string * story -> dict X) (l : dict story)
    (k : string) :
  own_entry h -> In k (keys (flat_map h l)) -> In k (keys l).
Proof.
  intros Hh. induction l as [| kv l IH]; simpl; [tauto |].
  rewrite keys_app. intros Hin. apply in_app_or in Hin as [Hin | Hin].
  - destruct (Hh kv) as [E | [x E]]; rewrite E in Hin; simpl in Hin.
    + contradiction.
    + destruct Hin as [<- | []]. now left.
  - right. now apply IH.
Qed.

Lemma own_entry_NoDup {X : Type} (h : string * story -> dict X) (l : dict story) :
  own_entry h -> NoDup (keys l) -> NoDup (keys (flat_map h l)).
Proof.
  intros Hh. induction l as [| kv l IH]; simpl; intros Hnd; [constructor |].
  inversion Hnd as [| ? ? Hfresh Hnd']; subst.
  rewrite keys_app.
  destruct (Hh kv) as [E | [x E]]; rewrite E; simpl.
  - now apply IH.
  - constructor; [| now apply IH].
    intros Hin. apply Hfresh. eapply own_entry_keys; eassumption.
Qed.

Lemma flat_map_filter {A B : Type} (p : A -> bool) (g : A -> list B) (l : list A) :
  flat_map g (filter p l) = flat_map (fun a => if p a then g a else []) l.
Proof.
  induction l as [| a l IH]; simpl; [reflexivity |].
  destruct (p a); simpl; now rewrite IH.
Qed.

Lemma map_filter_flat_map {A B : Type} (p : A -> bool) (g : A -> B) (l : list A) :
  map g (filter p l) = flat_map (fun a => if p a then [g a] else []) l.
Proof.
  induction l as [| a l IH]; simpl; [reflexivity |].
  destruct (p a); simpl; now rewrite IH.
Qed.

Lemma own_entry_attach {X : Type} (p : string * story -> bool)
    (g : string * story -> list X) :
  own_entry (fun kv => if p kv then attach [] (fst kv) (g kv) else []).
Proof.
  intros kv. destruct (p kv); [| now left].
  destruct (g kv) as [| x xs]; simpl; [now left | right; eauto].
Qed.

Lemma own_entry_single {X : Type} (p : string * story -> bool)
    (g : string * story -> X) :
  own_entry (fun kv => if p kv then [(fst kv, g kv)] else []).
Proof.
  intros kv. destruct (p kv); [right; eauto | now left].
Qed.

Lemma NoDup_keys_table {X : Type} (p : string * story -> bool)
    (g : string * story -> list X) (l : dict story) :
  NoDup (keys l) ->
  NoDup (keys (flat_map (fun kv => attach [] (fst kv) (g kv)) (filter p l))).
Proof.
  intros Hnd. rewrite flat_map_filter.
  apply own_entry_NoDup; [apply own_entry_attach | exact Hnd].
Qed.

Lemma NoDup_keys_selected {X : Type} (p : string * story -> bool)
    (g : string * story -> X) (l : dict story) :
  NoDup (keys l) ->
  NoDup (keys (map (fun kv => (fst kv, g kv)) (filter p l))).
Proof.
  intros Hnd. rewrite map_filter_flat_map.
  apply own_entry_NoDup; [apply own_entry_single | exact Hnd].
Qed.

Lemma add_story_tags_ext (d1 d2 : dict (list string)) (ts : dict (list npfloat))
    (s : string) (avg : npfloat) :
  dict_get d1 s = dict_get d2 s ->
  add_story_tags d1 ts s avg = add_story_tags d2 ts s avg.
Proof.
  intros H. unfold add_story_tags. now rewrite H.
Qed.

Lemma collect_tag_scores_ext (d1 d2 : dict (list string)) (avgs : dict npfloat) :
  (forall s, In s (keys avgs) -> dict_get d1 s = dict_get d2 s) ->
  collect_tag_scores d1 avgs = collect_tag_scores d2 avgs.
Proof.
  unfold collect_tag_scores. generalize (@nil (string * list npfloat)).
  induction avgs as [| [s avg] avgs IH]; intros ts H; simpl; [reflexivity |].
  rewrite (add_story_tags_ext d1 d2) by (apply H; now left).
  apply IH. intros s' Hs'. apply H. now right.
Qed.

(** C3, as stated, fails for story_titles: story "s1" has no error flag and
    is absent from the (empty) forecasts of the second model, yet its title is
    in story_titles. *)
Lemma scenario_title_kept :
  has_error scenario_story = false /\
  dict_mem (@nil (string * dict R)) "s1" = false /\
  exists rep,
    analyze_predictions scenario_results scenario_m1 [] = Returns rep /\
    dict_get (story_titles rep) "s1" = Some "A".
Proof.
  split; [reflexivity |]. split; [reflexivity |].
  eexists. split; [apply analyze_predictions_final, scenario_nodup |].
  reflexivity.
Qed.

(** C3 (amended): a non-error story of results that is absent from at least
    one model's forecast mapping has no entry in all_scores nor in
    story_avg_scores, and contributes to no average: all_scores,
    story_avg_scores, model_avg_scores and tag_avg_scores are those obtained
    without its record.  Its title is nevertheless recorded in
    story_titles. *)
Theorem absent_story_excluded (flash_forecasts flash_lite_forecasts : dict (dict R))
    (l1 l2 : dict story) (story_id : string) (story_data : story) :
  NoDup (keys (l1 ++ (story_id, story_data) :: l2)) ->
  has_error story_data = false ->
  dict_mem flash_forecasts story_id = false \/
  dict_mem flash_lite_forecasts story_id = false ->
  exists rep rep',
    analyze_predictions (l1 ++ (story_id, story_data) :: l2)
      flash_forecasts flash_lite_forecasts = Returns rep /\
    analyze_predictions (l1 ++ l2) flash_forecasts flash_lite_forecasts = Returns rep' /\
    all_scores rep = all_scores rep' /\
    story_avg_scores rep = story_avg_scores rep' /\
    model_avg_scores rep = model_avg_scores rep' /\
    tag_avg_scores rep = tag_avg_scores rep' /\
    ~ In story_id (keys (flash (all_scores rep))) /\
    ~ In story_id (keys (flash_lite (all_scores rep))) /\
    ~ In story_id (keys (story_avg_scores rep)) /\
    dict_get (story_titles rep) story_id = Some (get_title story_id story_data).
Proof.
  intros Hnd He Habs.
  pose proof (absent_not_joined flash_forecasts flash_lite_forecasts
                story_id story_data Habs) as Hj.
  pose proof (NoDup_without _ _ _ _ Hnd) as Hnd'.
  assert (Hout : ~ In story_id
                   (keys (score_lists flash_forecasts flash_lite_forecasts
                            (l1 ++ (story_id, story_data) :: l2))))
    by now apply not_joined_no_table.
  do 2 eexists. split; [now apply analyze_predictions_final |].
  split; [now apply analyze_predictions_final |].
  simpl. unfold score_table, score_lists.
  rewrite !(not_joined_same_table flash_forecasts flash_lite_forecasts
              l1 l2 story_id story_data) by exact Hj.
  repeat split.
  - f_equal. apply collect_tag_scores_ext.
    intros s Hs. rewrite keys_story_averages in Hs.
    unfold valid_stories. rewrite !filter_app, !map_app. simpl. rewrite He. simpl.
    apply dict_get_middle_other. intros <-.
    apply Hout. unfold score_lists.
    now rewrite (not_joined_same_table flash_forecasts flash_lite_forecasts
                   l1 l2 story_id story_data) by exact Hj.
  - rewrite <- (not_joined_same_table flash_forecasts flash_lite_forecasts
                  l1 l2 story_id story_data) by exact Hj.
    now apply not_joined_no_table.
  - rewrite <- (not_joined_same_table flash_forecasts flash_lite_forecasts
                  l1 l2 story_id story_data) by exact Hj.
    now apply not_joined_no_table.
  - rewrite keys_story_averages.
    rewrite <- (not_joined_same_table flash_forecasts flash_lite_forecasts
                  l1 l2 story_id story_data) by exact Hj.
    exact Hout.
  - apply dict_get_In.
    + unfold valid_stories. now apply NoDup_keys_selected.
    + unfold valid_stories.
      apply (in_map (fun kv => (fst kv, get_title (fst kv) (snd kv)))
               _ (story_id, story_data)).
      apply filter_In. split; [| simpl; now rewrite He].
      apply in_or_app. right. now left.
Qed.

Lemma absent_story_excluded_witness :
  exists rep rep',
    analyze_predictions ([] ++ ("s1", scenario_story) :: []) scenario_m1 []
    = Returns rep /\
    analyze_predictions ([] ++ []) scenario_m1 [] = Returns rep' /\
    all_scores rep = all_scores rep' /\
    story_avg_scores rep = story_avg_scores rep' /\
    model_avg_scores rep = model_avg_scores rep' /\
    tag_avg_scores rep = tag_avg_scores rep' /\
    ~ In "s1" (keys (flash (all_scores rep))) /\
    ~ In "s1" (keys (flash_lite (all_scores rep))) /\
    ~ In "s1" (keys (story_avg_scores rep)) /\
    dict_get (story_titles rep) "s1" = Some (get_title "s1" scenario_story).
Proof.
  apply (absent_story_excluded scenario_m1 [] [] [] "s1" scenario_story).
  - repeat constructor. simpl. tauto.
  - reflexivity.
  - right. reflexivity.
Defined.

(** ** Ranking: C9 *)

Section StableSort.
Context {A : Type}.
Variable precedes : A -> A -> bool.
Variable ordered : A -> A -> Prop.
Variable valid : A -> Prop.

Hypothesis ordered_trans : forall x y z, ordered x y -> ordered y z -> ordered x z.
Hypothesis precedes_ordered :
  forall x y, valid x -> valid y ->
              if precedes y x then ordered y x else ordered x y.

Lemma insert_stable_perm (x : A) (l : list A) :
  Permutation (insert_stable precedes x l) (x :: l).
Proof.
  induction l as [| y l IH]; simpl; [reflexivity |].
  destruct (precedes y x); [| reflexivity].
  rewrite IH. apply perm_swap.
Qed.

Lemma sort_perm (l : list A) :
  Permutation (fold_right (insert_stable precedes) [] l) l.
Proof.
  induction l as [| x l IH]; simpl; [reflexivity |].
  rewrite insert_stable_perm. now constructor.
Qed.

Lemma insert_stable_sorted (x : A) (l : list A) :
  valid x -> Forall valid l ->
  StronglySorted ordered l ->
  StronglySorted ordered (insert_stable precedes x l).
Proof.
  intros Hx Hl Hs. induction Hs as [| y l Hs IH Hy]; simpl.
  - constructor; constructor.
  - inversion Hl as [| ? ? Hvy Hvl]; subst.
    pose proof (precedes_ordered x y Hx Hvy) as Hxy.
    destruct (precedes y x).
    + constructor; [now apply IH |].
      eapply Permutation_Forall;
        [apply Permutation_sym, insert_stable_perm |].
      constructor; assumption.
    + constructor; [now constructor |].
      constructor; [exact Hxy |].
      eapply Forall_impl; [| exact Hy].
      intros z Hyz. eapply ordered_trans; eassumption.
Qed.

Lemma sort_sorted (l : list A) :
  Forall valid l ->
  StronglySorted ordered (fold_right (insert_stable precedes) [] l).
Proof.
  induction l as [| x l IH]; simpl; intros Hl; [constructor |].
  inversion Hl as [| ? ? Hx Hl']; subst.
  apply insert_stable_sorted; [exact Hx | | now apply IH].
  eapply Permutation_Forall; [apply Permutation_sym, sort_perm | exact Hl'].
Qed.

Lemma sorted_split (l1 l2 : list A) :
  StronglySorted ordered (l1 ++ l2) ->
  StronglySorted ordered l1 /\
  forall x y, In x l1 -> In y l2 -> ordered x y.
Proof.
  induction l1 as [| a l1 IH]; simpl; intros Hs.
  - split; [constructor | intros x y []].
  - inversion Hs as [| ? ? Hs' Ha]; subst.
    destruct (IH Hs') as [Hs1 Hcross]. split.
    + constructor; [exact Hs1 |].
      apply Forall_forall. intros z Hz.
      rewrite Forall_forall in Ha. apply Ha. apply in_or_app. now left.
    + intros x y [<- | Hx] Hy.
      * rewrite Forall_forall in Ha. apply Ha. apply in_or_app. now right.
      * now apply Hcross.
Qed.

(** The first [k] items of the sorted list are in order, and no item left
    out should come before one of them. *)
Lemma firstn_sort (k : nat) (l : list A) :
  Forall valid l ->
  let top := firstn k (fold_right (insert_stable precedes) [] l) in
  length top = Nat.min k (length l) /\
  StronglySorted ordered top /\
  exists rest,
    Permutation l (top ++ rest) /\
    forall x y, In x top -> In y rest -> ordered x y.
Proof.
  intros Hl top. subst top.
  set (s := fold_right (insert_stable precedes) [] l).
  assert (Hperm : Permutation s l) by apply sort_perm.
  assert (Hs : StronglySorted ordered s) by now apply sort_sorted.
  rewrite <- (firstn_skipn k s) in Hs. apply sorted_split in Hs as [Hs1 Hcross].
  split; [| split; [exact Hs1 |]].
  - rewrite length_firstn. now rewrite (Permutation_length Hperm).
  - exists (skipn k s). split; [| exact Hcross].
    rewrite firstn_skipn. now apply Permutation_sym.
Qed.
End StableSort.

Lemma np_lt_descending (x y : string * npfloat) :
  snd x <> NaN -> snd y <> NaN ->
  if np_lt (snd x) (snd y) then descending y x else descending x y.
Proof.
  unfold descending, np_lt.
  destruct (snd x) as [a |], (snd y) as [b |]; try congruence. intros _ _.
  simpl. destruct (Rlt_dec a b); lra.
Qed.

Lemma np_lt_ascending (x y : string * npfloat) :
  snd x <> NaN -> snd y <> NaN ->
  if np_lt (snd y) (snd x) then ascending y x else ascending x y.
Proof.
  unfold ascending, np_lt.
  destruct (snd x) as [a |], (snd y) as [b |]; try congruence. intros _ _.
  simpl. destruct (Rlt_dec b a); lra.
Qed.

Lemma ranking_example_top : keys (top_stories 2 ranking_example) = ["c"; "a"].
Proof.
  unfold top_stories, sorted_by_score, ranking_example, np_lt. simpl.
  repeat (destruct (Rlt_dec _ _); try lra; simpl).
  reflexivity.
Qed.

Lemma ranking_example_bottom : keys (bottom_stories 2 ranking_example) = ["b"; "a"].
Proof.
  unfold bottom_stories, sorted_by_score, ranking_example, np_lt. simpl.
  repeat (destruct (Rlt_dec _ _); try lra; simpl).
  reflexivity.
Qed.

(** C9: ranking returns the k highest-scoring stories in descending score
    order as most predictable and the k lowest-scoring stories in ascending
    score order as least predictable; on {"a": -0.1, "b": -0.5, "c": -0.05}
    with k = 2 the most predictable are ["c", "a"] and the least
    predictable ["b", "a"]. *)
Theorem ranking_top_bottom :
  (forall (k : nat) (scores : dict npfloat),
     Forall (fun kv => snd kv <> NaN) scores ->
     (length (top_stories k scores) = Nat.min k (length scores) /\
      StronglySorted descending (top_stories k scores) /\
      exists rest,
        Permutation scores (top_stories k scores ++ rest) /\
        forall x y, In x (top_stories k scores) -> In y rest -> descending x y) /\
     (length (bottom_stories k scores) = Nat.min k (length scores) /\
      StronglySorted ascending (bottom_stories k scores) /\
      exists rest,
        Permutation scores (bottom_stories k scores ++ rest) /\
        forall x y, In x (bottom_stories k scores) -> In y rest -> ascending x y)) /\
  keys (top_stories 2 ranking_example) = ["c"; "a"] /\
  keys (bottom_stories 2 ranking_example) = ["b"; "a"].
Proof.
  split; [| split; [apply ranking_example_top | apply ranking_example_bottom]].
  intros k scores Hfin. split.
  - unfold top_stories, sorted_by_score.
    apply (firstn_sort _ descending (fun kv => snd kv <> NaN)).
    + unfold descending. intros x y z Hxy Hyz. lra.
    + intros x y Hx Hy. now apply np_lt_descending.
    + exact Hfin.
  - unfold bottom_stories, sorted_by_score.
    apply (firstn_sort _ ascending (fun kv => snd kv <> NaN)).
    + unfold ascending. intros x y z Hxy Hyz. lra.
    + intros x y Hx Hy. now apply np_lt_ascending.
    + exact Hfin.
Qed.

Lemma ranking_top_bottom_witness :
  Forall (fun kv : string * npfloat => snd kv <> NaN) ranking_example /\
  length (top_stories 2 ranking_example) = Nat.min 2 (length ranking_example) /\
  StronglySorted descending (top_stories 2 ranking_example) /\
  StronglySorted ascending (bottom_stories 2 ranking_example).
Proof.
  assert (H : Forall (fun kv : string * npfloat => snd kv <> NaN) ranking_example).
  { repeat constructor; simpl; discriminate. }
  split; [exact H |].
  destruct (proj1 ranking_top_bottom 2%nat ranking_example H)
    as [(Hlen & Htop & _) (_ & Hbot & _)].
  split; [exact Hlen |]. split; [exact Htop | exact Hbot].
Defined.

(** ** Order independence: C8 *)






Lemma dict_get_map {V W : Type} (g : V -> W) (d : dict V) (k : string) :
  dict_get (map (fun kv => (fst kv, g (snd kv))) d) k = option_map g (dict_get d k).
Proof.
  induction d as [| [k1 v1] d IH]; simpl; [reflexivity |].
  destruct (String.eqb k1 k); [reflexivity | exact IH].
Qed.













Section Reordered.
Variables flash_forecasts flash_lite_forecasts : dict (dict R).
Variables results results' : dict story.

Hypothesis Hnd : NoDup (keys results).
Hypothesis Hperm : Permutation results results'.

Let joined := scorable flash_forecasts flash_lite_forecasts.







End Reordered.




(** * Further properties of analysis.py *)

(** ** The range of the log score *)






(** ** The score tables, entry by entry *)

Lemma scored_entries_keys (f : dict R) (qs : list question) :
  forall (i0 : nat) (k : string),
    In k (keys (scored_entries f i0 qs)) ->
    exists j, (j < length qs)%nat /\ k = str (i0 + j).
Proof.
  induction qs as [| q qs IH]; intros i0 k; simpl; [contradiction |].
  assert (Hrest : In k (keys (scored_entries f (S i0) qs)) ->
                  exists j, (j < S (length qs))%nat /\ k = str (i0 + j)).
  { intros Hin. destruct (IH _ _ Hin) as (j & Hj & ->).
    exists (S j). split; [lia |]. f_equal. lia. }
  destruct (dict_get f (str i0)); [| exact Hrest].
  simpl. intros [<- | Hin]; [| now apply Hrest].
  exists 0%nat. split; [lia |]. f_equal. lia.
Qed.

Lemma scored_entries_lookup (f : dict R) (qs : list question) :
  forall i0 j : nat,
    dict_get (scored_entries f i0 qs) (str (i0 + j))
    = match nth_error qs j with
      | Some q =>
          match dict_get f (str (i0 + j)) with
          | Some prediction => Some (log_score_value prediction (answer q))
          | None => None
          end
      | None => None
      end.
Proof.
  induction qs as [| q qs IH]; intros i0 j; simpl.
  - now destruct j.
  - destruct j as [| j]; simpl.
    + rewrite Nat.add_0_r.
      destruct (dict_get f (str i0)) as [p |]; simpl.
      * now rewrite String.eqb_refl.
      * apply dict_get_None. intros Hin.
        apply scored_entries_keys in Hin as (j & _ & E).
        apply str_inj in E. lia.
    + replace (i0 + S j)%nat with (S i0 + j)%nat by lia.
      destruct (dict_get f (str i0)) as [p |]; simpl; [| exact (IH (S i0) j)].
      destruct (String.eqb_spec (str i0) (str (S (i0 + j)))) as [E | _].
      * apply str_inj in E. lia.
      * exact (IH (S i0) j).
Qed.

(** The entry of a selected story in a table is what the story adds. *)
Lemma table_lookup {X : Type} (p : string * story -> bool)
    (g : string * story -> list X) (l : dict story)
    (story_id : string) (story_data : story) :
  NoDup (keys l) ->
  In (story_id, story_data) l ->
  p (story_id, story_data) = true ->
  dict_get (flat_map (fun kv => attach [] (fst kv) (g kv)) (filter p l)) story_id
  = match g (story_id, story_data) with
    | [] => None
    | _ :: _ => Some (g (story_id, story_data))
    end.
Proof.
  intros Hnd Hin Hp.
  destruct (g (story_id, story_data)) as [| x xs] eqn:Eg.
  - apply dict_get_None. intros Hk.
    rewrite flat_map_filter in Hk.
    assert (Hkeys : forall (l' : dict story),
               NoDup (keys l') -> In (story_id, story_data) l' ->
               ~ In story_id
                   (keys (flat_map
                            (fun a => if p a then attach [] (fst a) (g a) else []) l'))).
    { clear Hk Hnd Hin. induction l' as [| [k d] l' IH']; simpl; [tauto |].
      intros Hnd' Hin' Hk'. inversion Hnd' as [| ? ? Hfresh Hnd'']; subst.
      rewrite keys_app in Hk'. apply in_app_or in Hk' as [Hk' | Hk'].
      - destruct (p (k, d)); [| contradiction].
        pose proof (keys_attach_nil _ _ _ Hk') as Ek. simpl in Ek. subst k.
        destruct Hin' as [E | Hin'].
        + injection E as ->. rewrite Eg in Hk'. simpl in Hk'. contradiction.
        + apply Hfresh. change story_id with (fst (story_id, story_data)).
          now apply in_map.
      - destruct Hin' as [E | Hin'].
        + injection E as -> ->. apply Hfresh.
          eapply own_entry_keys; [apply (own_entry_attach p g) | exact Hk'].
        + now apply (IH' Hnd''). }
    now apply (Hkeys l).
  - apply dict_get_In; [now apply NoDup_keys_table |].
    apply in_flat_map. exists (story_id, story_data). split.
    + apply filter_In. now split.
    + simpl. rewrite Eg. now left.
Qed.

Lemma lookup2_score_table (ff fl forecasts : dict (dict R)) (results : dict story)
    (story_id : string) (story_data : story) (f : dict R) (k : string) :
  NoDup (keys results) ->
  In (story_id, story_data) results ->
  scorable ff fl (story_id, story_data) = true ->
  dict_get forecasts story_id = Some f ->
  lookup2 (score_table ff fl forecasts results) story_id k
  = dict_get (scored_entries f 0 (get_questions story_data)) k.
Proof.
  intros Hnd Hin Hs Hf. unfold lookup2, score_table.
  rewrite (table_lookup _ _ _ story_id story_data Hnd Hin Hs).
  unfold story_entries. simpl. rewrite Hf.
  destruct (scored_entries f 0 (get_questions story_data)); reflexivity.
Qed.

Lemma scorable_intro (ff fl : dict (dict R)) (story_id : string) (story_data : story)
    (f f' : dict R) :
  has_error story_data = false ->
  dict_get ff story_id = Some f ->
  dict_get fl story_id = Some f' ->
  scorable ff fl (story_id, story_data) = true.
Proof.
  intros He Hf Hl. unfold scorable, dict_mem. simpl. now rewrite He, Hf, Hl.
Qed.

(** X3: for a story without error flag that both models forecast, the
    score tables hold, under the key str(i), the score of the model's
    forecast for question i against the answer of question i, for exactly
    the indices i that have both a question and a forecast; a forecast
    under any other key (an index past the last question, a key that is not
    a decimal index) is ignored. *)
Theorem scores_by_question (results : dict story)
    (flash_forecasts flash_lite_forecasts : dict (dict R))
    (story_id : string) (story_data : story) (f f' : dict R) :
  NoDup (keys results) ->
  In (story_id, story_data) results ->
  has_error story_data = false ->
  dict_get flash_forecasts story_id = Some f ->
  dict_get flash_lite_forecasts story_id = Some f' ->
  exists rep,
    analyze_predictions results flash_forecasts flash_lite_forecasts = Returns rep /\
    (forall i,
       lookup2 (flash (all_scores rep)) story_id (str i)
       = question_score (get_questions story_data) f i) /\
    (forall i,
       lookup2 (flash_lite (all_scores rep)) story_id (str i)
       = question_score (get_questions story_data) f' i) /\
    (forall k s,
       lookup2 (flash (all_scores rep)) story_id k = Some s \/
       lookup2 (flash_lite (all_scores rep)) story_id k = Some s ->
       exists i, (i < length (get_questions story_data))%nat /\ k = str i).
Proof.
  intros Hnd Hin He Hf Hl.
  pose proof (scorable_intro _ _ _ _ _ _ He Hf Hl) as Hs.
  eexists. split; [now apply analyze_predictions_final |].
  simpl. split; [| split].
  - intros i. rewrite (lookup2_score_table _ _ _ _ _ _ _ _ Hnd Hin Hs Hf).
    apply (scored_entries_lookup f (get_questions story_data) 0 i).
  - intros i. rewrite (lookup2_score_table _ _ _ _ _ _ _ _ Hnd Hin Hs Hl).
    apply (scored_entries_lookup f' (get_questions story_data) 0 i).
  - intros k s [H | H].
    + rewrite (lookup2_score_table _ _ _ _ _ _ _ _ Hnd Hin Hs Hf) in H.
      apply dict_get_In_keys, scored_entries_keys in H. exact H.
    + rewrite (lookup2_score_table _ _ _ _ _ _ _ _ Hnd Hin Hs Hl) in H.
      apply dict_get_In_keys, scored_entries_keys in H. exact H.
Qed.

Lemma scores_by_question_witness :
  exists rep,
    analyze_predictions scenario_results scenario_m1 scenario_m2 = Returns rep /\
    lookup2 (flash (all_scores rep)) "s1" (str 1)
    = question_score (get_questions scenario_story) [("0", 0.8); ("1", 0.3)] 1 /\
    lookup2 (flash_lite (all_scores rep)) "s1" (str 0)
    = question_score (get_questions scenario_story) [("0", 0.6); ("1", 0.4)] 0.
Proof.
  destruct (scores_by_question scenario_results scenario_m1 scenario_m2
              "s1" scenario_story [("0", 0.8); ("1", 0.3)] [("0", 0.6); ("1", 0.4)])
    as (rep & Hrep & Hflash & Hlite & _).
  - exact scenario_nodup.
  - now left.
  - reflexivity.
  - reflexivity.
  - reflexivity.
  - exists rep. split; [exact Hrep |]. split; [apply Hflash | apply Hlite].
Defined.

(** ** Titles, keys and empty aggregates *)

Lemma selected_lookup {X : Type} (p : string * story -> bool)
    (g : string * story -> X) (l : dict story) (story_id : string) :
  NoDup (keys l) ->
  dict_get (map (fun kv => (fst kv, g kv)) (filter p l)) story_id
  = match dict_get l story_id with
    | Some story_data =>
        if p (story_id, story_data) then Some (g (story_id, story_data)) else None
    | None => None
    end.
Proof.
  induction l as [| [k d] l IH]; simpl; intros Hnd; [reflexivity |].
  inversion Hnd as [| ? ? Hfresh Hnd']; subst.
  destruct (String.eqb_spec k story_id) as [-> | Hne].
  - destruct (p (story_id, d)); simpl.
    + now rewrite String.eqb_refl.
    + apply dict_get_None. intros Hin.
      apply keys_map_selected in Hin as (d' & Hd' & _).
      apply Hfresh. change story_id with (fst (story_id, d')). now apply in_map.
  - destruct (p (k, d)); simpl.
    + destruct (String.eqb_spec k story_id); [contradiction | now apply IH].
    + now apply IH.
Qed.

(** X4: story_titles has an entry for exactly the stories of results
    without a truthy error flag, whether or not they were forecast: the
    story's Title, or "Story <id>" when the record has no Title. *)
Theorem story_titles_lookup (results : dict story)
    (flash_forecasts flash_lite_forecasts : dict (dict R)) :
  NoDup (keys results) ->
  exists rep,
    analyze_predictions results flash_forecasts flash_lite_forecasts = Returns rep /\
    forall story_id,
      dict_get (story_titles rep) story_id
      = match dict_get results story_id with
        | Some story_data =>
            if has_error story_data then None
            else match Title story_data with
                 | Some t => Some t
                 | None => Some ("Story " ++ story_id)%string
                 end
        | None => None
        end.
Proof.
  intros Hnd. eexists. split; [now apply analyze_predictions_final |].
  intros story_id. simpl. unfold valid_stories.
  rewrite (selected_lookup _ (fun kv => get_title (fst kv) (snd kv))) by exact Hnd.
  destruct (dict_get results story_id) as [d |]; [| reflexivity].
  simpl. unfold get_title. destruct (has_error d); simpl; [reflexivity |].
  destruct (Title d); reflexivity.
Qed.

Lemma story_titles_lookup_witness :
  exists rep,
    analyze_predictions scenario_two_results scenario_m1 scenario_m2 = Returns rep /\
    dict_get (story_titles rep) "s1" = Some "A" /\
    dict_get (story_titles rep) "s0" = None.
Proof.
  destruct (story_titles_lookup scenario_two_results scenario_m1 scenario_m2)
    as (rep & Hrep & Ht).
  - repeat constructor; simpl; intuition discriminate.
  - exists rep. split; [exact Hrep |].
    split; [apply (Ht "s1") | apply (Ht "s0")].
Defined.

Lemma keys_table_values (g : string * story -> dict R) (l : dict story) :
  keys (flat_map (fun kv => attach [] (fst kv) (values (g kv))) l)
  = keys (flat_map (fun kv => attach [] (fst kv) (g kv)) l).
Proof.
  induction l as [| kv l IH]; simpl; [reflexivity |].
  rewrite !keys_app, IH. now destruct (g kv).
Qed.

Lemma table_entries_nonempty {X : Type} (g : string * story -> list X) (l : dict story) :
  Forall (fun kv => snd kv <> []) (flat_map (fun kv => attach [] (fst kv) (g kv)) l).
Proof.
  induction l as [| kv l IH]; simpl; [constructor |].
  destruct (g kv) as [| x xs]; simpl; [exact IH |].
  constructor; [discriminate | exact IH].
Qed.



(** X5: story_avg_scores has the same story ids as all_scores["flash"], in
    the same order, and no per-story table of all_scores is empty: a story
    appears there only once one of its questions is scored. *)
Theorem story_average_keys (results : dict story)
    (flash_forecasts flash_lite_forecasts : dict (dict R)) :
  NoDup (keys results) ->
  exists rep,
    analyze_predictions results flash_forecasts flash_lite_forecasts = Returns rep /\
    keys (story_avg_scores rep) = keys (flash (all_scores rep)) /\
    Forall (fun kv => snd kv <> []) (flash (all_scores rep)) /\
    Forall (fun kv => snd kv <> []) (flash_lite (all_scores rep)).
Proof.
  intros Hnd. eexists. split; [now apply analyze_predictions_final |].
  simpl. split; [| split].
  - rewrite keys_story_averages. unfold score_lists, score_table.
    apply keys_table_values.
  - apply table_entries_nonempty.
  - apply table_entries_nonempty.
Qed.

Lemma story_average_keys_witness :
  exists rep,
    analyze_predictions scenario_two_results scenario_m1 scenario_m2 = Returns rep /\
    keys (story_avg_scores rep) = keys (flash (all_scores rep)).
Proof.
  destruct (story_average_keys scenario_two_results scenario_m1 scenario_m2)
    as (rep & Hrep & Hk & _).
  - repeat constructor; simpl; intuition discriminate.
  - exists rep. split; [exact Hrep | exact Hk].
Defined.



(** ** Bounds on the story averages *)












(** ** Analysing results in batches *)

Lemma final_acc_app (ff fl : dict (dict R)) (r1 r2 : dict story) :
  final_acc ff fl (r1 ++ r2) = acc_app (final_acc ff fl r1) (final_acc ff fl r2).
Proof.
  unfold final_acc, acc_app, score_table, score_lists, valid_stories. simpl.
  now rewrite !filter_app, !flat_map_app, !map_app.
Qed.

(** X8: for two batches of results with distinct story ids, the per-model
    score tables, the story averages and the titles of the whole are those of
    the first batch followed by those of the second. *)
Theorem analyze_batches (r1 r2 : dict story)
    (flash_forecasts flash_lite_forecasts : dict (dict R)) :
  NoDup (keys (r1 ++ r2)) ->
  exists rep rep1 rep2,
    analyze_predictions (r1 ++ r2) flash_forecasts flash_lite_forecasts = Returns rep /\
    analyze_predictions r1 flash_forecasts flash_lite_forecasts = Returns rep1 /\
    analyze_predictions r2 flash_forecasts flash_lite_forecasts = Returns rep2 /\
    flash (all_scores rep) = flash (all_scores rep1) ++ flash (all_scores rep2) /\
    flash_lite (all_scores rep)
    = flash_lite (all_scores rep1) ++ flash_lite (all_scores rep2) /\
    story_avg_scores rep = story_avg_scores rep1 ++ story_avg_scores rep2 /\
    story_titles rep = story_titles rep1 ++ story_titles rep2.
Proof.
  intros Hnd.
  assert (Hnd1 : NoDup (keys r1)).
  { rewrite keys_app in Hnd. eapply NoDup_app_remove_r. exact Hnd. }
  assert (Hnd2 : NoDup (keys r2)).
  { rewrite keys_app in Hnd. eapply NoDup_app_remove_l. exact Hnd. }
  do 3 eexists.
  split; [now apply analyze_predictions_final |].
  split; [now apply analyze_predictions_final |].
  split; [now apply analyze_predictions_final |].
  rewrite final_acc_app. simpl. unfold story_averages.
  rewrite map_app. repeat split.
Qed.

Lemma analyze_batches_witness :
  exists rep rep1 rep2,
    analyze_predictions ([("s0", scenario_error_story)] ++ scenario_results)
      scenario_m1 scenario_m2 = Returns rep /\
    analyze_predictions [("s0", scenario_error_story)] scenario_m1 scenario_m2
    = Returns rep1 /\
    analyze_predictions scenario_results scenario_m1 scenario_m2 = Returns rep2 /\
    story_avg_scores rep = story_avg_scores rep1 ++ story_avg_scores rep2.
Proof.
  destruct (analyze_batches [("s0", scenario_error_story)] scenario_results
              scenario_m1 scenario_m2)
    as (rep & rep1 & rep2 & H & H1 & H2 & _ & _ & Havg & _).
  - repeat constructor; simpl; intuition discriminate.
  - exists rep, rep1, rep2. repeat split; assumption.
Defined.

(** ** The tag averages in closed form *)







(** ** Ties in the ranking *)






(** ** The ranking of [main_2] against the one of [main] *)

Lemma StronglySorted_snoc {A : Type} (ordered : A -> A -> Prop) (l : list A) (x : A) :
  StronglySorted ordered l -> Forall (fun y => ordered y x) l ->
  StronglySorted ordered (l ++ [x]).
Proof.
  induction 1 as [| y l Hs IH Hy]; simpl; intros Hall.
  - constructor; constructor.
  - inversion Hall as [| ? ? Hyx Hall']; subst.
    constructor; [now apply IH |].
    apply Forall_app. split; [exact Hy | now constructor].
Qed.

Lemma ascending_rev (l : dict npfloat) :
  StronglySorted ascending l -> StronglySorted descending (rev l).
Proof.
  induction 1 as [| x l Hs IH Hx]; simpl; [constructor |].
  apply StronglySorted_snoc; [exact IH |].
  apply Forall_rev. eapply Forall_impl; [| exact Hx].
  intros y Hxy. exact Hxy.
Qed.

Lemma descending_scores (l : dict npfloat) :
  StronglySorted descending l ->
  StronglySorted (fun a b => b <= a) (map (fun kv => score_of (snd kv)) l).
Proof.
  induction 1 as [| x l Hs IH Hx]; simpl; constructor; [exact IH |].
  apply Forall_map. exact Hx.
Qed.

(** Two lists of numbers in descending order with the same elements are
    the same list. *)
Lemma descending_unique (l1 : list R) :
  forall l2,
    StronglySorted (fun a b => b <= a) l1 ->
    StronglySorted (fun a b => b <= a) l2 ->
    Permutation l1 l2 -> l1 = l2.
Proof.
  induction l1 as [| a l1 IH]; intros l2 H1 H2 Hp.
  - apply Permutation_nil in Hp. now subst.
  - destruct l2 as [| b l2].
    + apply Permutation_sym, Permutation_nil in Hp. discriminate.
    + inversion H1 as [| ? ? H1' Ha]; subst.
      inversion H2 as [| ? ? H2' Hb]; subst.
      assert (Hab : a = b).
      { rewrite Forall_forall in Ha, Hb.
        assert (Hin_b : In b (a :: l1)).
        { apply (Permutation_in _ (Permutation_sym Hp)). now left. }
        assert (Hin_a : In a (b :: l2)).
        { apply (Permutation_in _ Hp). now left. }
        destruct Hin_b as [E | Hin_b]; [exact E |].
        destruct Hin_a as [E | Hin_a]; [now symmetry |].
        apply Rle_antisym; [now apply Hb | now apply Ha]. }
      subst b. f_equal. apply IH; try assumption.
      now apply Permutation_cons_inv in Hp.
Qed.

Lemma same_scores_same_items (l1 : dict npfloat) :
  forall l2,
    map (fun kv => score_of (snd kv)) l1 = map (fun kv => score_of (snd kv)) l2 ->
    Permutation l1 l2 ->
    NoDup (map (fun kv => score_of (snd kv)) l1) ->
    l1 = l2.
Proof.
  induction l1 as [| x l1 IH]; intros l2 Hs Hp Hnd.
  - apply Permutation_nil in Hp. now subst.
  - destruct l2 as [| y l2]; [discriminate |].
    simpl in Hs. injection Hs as Hxy Hs.
    inversion Hnd as [| ? ? Hfresh Hnd']; subst.
    assert (E : x = y).
    { assert (Hin : In y (x :: l1)).
      { apply (Permutation_in _ (Permutation_sym Hp)). now left. }
      destruct Hin as [E | Hin]; [exact E |].
      exfalso. apply Hfresh. rewrite Hxy.
      now apply (in_map (fun kv => score_of (snd kv))). }
    subst y. f_equal. apply IH; try assumption.
    now apply Permutation_cons_inv in Hp.
Qed.

Lemma sorted_ascending (items : dict npfloat) :
  Forall (fun kv => snd kv <> NaN) items ->
  StronglySorted ascending (sorted_by_score false items).
Proof.
  intros Hfin. unfold sorted_by_score.
  apply (sort_sorted _ ascending (fun kv => snd kv <> NaN)).
  - unfold ascending. intros x y z Hxy Hyz. lra.
  - intros x y Hx Hy. now apply np_lt_ascending.
  - exact Hfin.
Qed.

Lemma sorted_descending (items : dict npfloat) :
  Forall (fun kv => snd kv <> NaN) items ->
  StronglySorted descending (sorted_by_score true items).
Proof.
  intros Hfin. unfold sorted_by_score.
  apply (sort_sorted _ descending (fun kv => snd kv <> NaN)).
  - unfold descending. intros x y z Hxy Hyz. lra.
  - intros x y Hx Hy. now apply np_lt_descending.
  - exact Hfin.
Qed.

Lemma sorted_by_score_perm (reverse : bool) (items : dict npfloat) :
  Permutation (sorted_by_score reverse items) items.
Proof.
  unfold sorted_by_score. apply sort_perm.
Qed.

(** The ascending sort read backwards has the scores of the descending
    sort, and the same items when no two scores are equal. *)
Lemma rev_ascending_scores (items : dict npfloat) :
  Forall (fun kv => snd kv <> NaN) items ->
  map (fun kv => score_of (snd kv)) (rev (sorted_by_score false items))
  = map (fun kv => score_of (snd kv)) (sorted_by_score true items).
Proof.
  intros Hfin. apply descending_unique.
  - apply descending_scores, ascending_rev. now apply sorted_ascending.
  - apply descending_scores. now apply sorted_descending.
  - apply Permutation_map.
    rewrite <- Permutation_rev, !sorted_by_score_perm. reflexivity.
Qed.

Lemma main_2_most_firstn (items : dict npfloat) :
  main_2_most items = firstn 5 (rev (sorted_by_score false items)).
Proof.
  unfold main_2_most. cbv zeta. now rewrite firstn_rev.
Qed.

(** X11: main_2 lists the same least predictable stories as main; its
    most predictable stories have the same scores as those of main, in the
    same order, and are the same stories when no two story averages are
    equal (with ties the two functions may order the tied stories
    differently). *)
Theorem main_2_agrees_with_main (story_avg_scores : dict npfloat) :
  Forall (fun kv => snd kv <> NaN) story_avg_scores ->
  main_2_least story_avg_scores = bottom_stories 5 story_avg_scores /\
  map (fun kv => score_of (snd kv)) (main_2_most story_avg_scores)
  = map (fun kv => score_of (snd kv)) (top_stories 5 story_avg_scores) /\
  (NoDup (map (fun kv => score_of (snd kv)) story_avg_scores) ->
   main_2_most story_avg_scores = top_stories 5 story_avg_scores).
Proof.
  intros Hfin. split; [reflexivity |].
  rewrite main_2_most_firstn. unfold top_stories. split.
  - rewrite <- !firstn_map. f_equal. now apply rev_ascending_scores.
  - intros Hnd. f_equal. apply same_scores_same_items.
    + now apply rev_ascending_scores.
    + rewrite <- Permutation_rev, !sorted_by_score_perm. reflexivity.
    + eapply Permutation_NoDup; [| exact Hnd].
      apply Permutation_map.
      rewrite <- Permutation_rev, sorted_by_score_perm. reflexivity.
Qed.

Lemma main_2_agrees_with_main_witness :
  Forall (fun kv : string * npfloat => snd kv <> NaN) ranking_example /\
  main_2_least ranking_example = bottom_stories 5 ranking_example /\
  main_2_most ranking_example = top_stories 5 ranking_example.
Proof.
  assert (H : Forall (fun kv : string * npfloat => snd kv <> NaN) ranking_example).
  { repeat constructor; simpl; discriminate. }
  split; [exact H |].
  destruct (main_2_agrees_with_main ranking_example H) as (Hleast & _ & Hmost).
  split; [exact Hleast |]. apply Hmost.
  unfold ranking_example. simpl.
  repeat constructor; simpl; intros Hin;
    repeat (destruct Hin as [Hin | Hin]; [lra |]); exact Hin.
Defined.

(** ** The story average from the inputs *)

Lemma flat_map_map {A B C : Type} (f : A -> B) (g : B -> list C) (l : list A) :
  flat_map g (map f l) = flat_map (fun a => g (f a)) l.
Proof.
  induction l as [| a l IH]; simpl; [reflexivity | now rewrite IH].
Qed.

Lemma scored_entries_by_index (f : dict R) (qs : list question) :
  forall i0,
    values (scored_entries f i0 qs)
    = flat_map
        (fun j => match nth_error qs j with
                  | Some q =>
                      match dict_get f (str (i0 + j)) with
                      | Some prediction => [log_score_value prediction (answer q)]
                      | None => []
                      end
                  | None => []
                  end)
        (seq 0 (length qs)).
Proof.
  induction qs as [| q qs IH]; intros i0; [reflexivity |].
  cbn [length seq flat_map nth_error scored_entries].
  rewrite <- seq_shift, flat_map_map, Nat.add_0_r.
  assert (E : values (scored_entries f (S i0) qs)
              = flat_map
                  (fun a => match nth_error (q :: qs) (S a) with
                            | Some q0 =>
                                match dict_get f (str (i0 + S a)) with
                                | Some prediction =>
                                    [log_score_value prediction (answer q0)]
                                | None => []
                                end
                            | None => []
                            end)
                  (seq 0 (length qs))).
  { rewrite IH. apply flat_map_ext. intros j. cbn [nth_error].
    now replace (i0 + S j)%nat with (S i0 + j)%nat by lia. }
  destruct (dict_get f (str i0)); simpl; now rewrite E.
Qed.

Lemma scored_entries_forecast_scores (f : dict R) (qs : list question) :
  values (scored_entries f 0 qs) = forecast_scores qs f.
Proof.
  rewrite scored_entries_by_index. unfold forecast_scores, question_score.
  apply flat_map_ext. intros j. simpl.
  destruct (nth_error qs j); [| reflexivity].
  destruct (dict_get f (str j)); reflexivity.
Qed.

(** X12: for a story without error flag that both models forecast,
    story_avg_scores holds the arithmetic mean of the scores of its
    questions that have a flash forecast, taken by increasing question
    index; the story has no average when none of its questions has a flash
    forecast, whatever the flash-lite model forecast. *)
Theorem story_average_closed_form (results : dict story)
    (flash_forecasts flash_lite_forecasts : dict (dict R))
    (story_id : string) (story_data : story) (f f' : dict R) :
  NoDup (keys results) ->
  In (story_id, story_data) results ->
  has_error story_data = false ->
  dict_get flash_forecasts story_id = Some f ->
  dict_get flash_lite_forecasts story_id = Some f' ->
  exists rep,
    analyze_predictions results flash_forecasts flash_lite_forecasts = Returns rep /\
    dict_get (story_avg_scores rep) story_id
    = match forecast_scores (get_questions story_data) f with
      | [] => None
      | _ :: _ => Some (Fin (mean (forecast_scores (get_questions story_data) f)))
      end.
Proof.
  intros Hnd Hin He Hf Hl.
  pose proof (scorable_intro _ _ _ _ _ _ He Hf Hl) as Hs.
  eexists. split; [now apply analyze_predictions_final |].
  simpl. unfold story_averages, score_lists.
  rewrite (dict_get_map (fun l => np_mean (map Fin l))).
  rewrite (table_lookup _ (fun kv => values (story_entries flash_forecasts kv))
             _ story_id story_data Hnd Hin Hs).
  unfold story_entries. cbn [fst snd]. rewrite Hf.
  rewrite scored_entries_forecast_scores.
  destruct (forecast_scores (get_questions story_data) f) as [| x xs] eqn:E;
    [reflexivity |].
  simpl option_map. f_equal. apply (np_mean_Fin (x :: xs)). discriminate.
Qed.

Lemma story_average_closed_form_witness :
  exists rep,
    analyze_predictions scenario_results scenario_m1 scenario_m2 = Returns rep /\
    dict_get (story_avg_scores rep) "s1"
    = match forecast_scores (get_questions scenario_story) [("0", 0.8); ("1", 0.3)] with
      | [] => None
      | _ :: _ =>
          Some (Fin (mean (forecast_scores (get_questions scenario_story)
                             [("0", 0.8); ("1", 0.3)])))
      end.
Proof.
  apply (story_average_closed_form scenario_results scenario_m1 scenario_m2
           "s1" scenario_story [("0", 0.8); ("1", 0.3)] [("0", 0.6); ("1", 0.4)]).
  - exact scenario_nodup.
  - now left.
  - reflexivity.
  - reflexivity.
  - reflexivity.
Defined.
